(** * TIMEFOLD: a shallow embedding of [timefold.py]

    The program is a Streamlit script: every user action re-runs the file
    top to bottom against the persistent [st.session_state].  The model
    below follows that shape.

    - JSON data ([json.loads] results, history entries, councils,
      simulations) are Python values: [value].
    - Python operations that can raise (subscripting, [.get], [.lower()],
      [in], iteration, [len]) return a [result].
    - [recruit_agents], [run_simulation], [generate_markdown_report] and
      [draw_advanced_tree] are translated function by function.
    - One run of the script is [script]: a computation over the session
      state that logs what it shows or sends ([event]) and ends normally,
      with an uncaught exception, with [st.rerun()] or with [st.stop()].

    What lies outside the repository is a parameter: the generative
    backend and the clock are fields of [env], [json.loads] and Python's
    [repr] of containers are section variables.

    Strings are byte strings (the UTF-8 text of the Python strings):
    substring tests agree with Python's, [lower] acts on the ASCII letters,
    and the length of a string or the characters it iterates over only
    matter to the program through being empty or not. *)

From stdpp Require Import base list strings pretty.
From Stdlib Require Import ZArith Lia Ascii.

Local Open Scope string_scope.
Local Open Scope list_scope.

(** ** Characters the source writes with escapes *)

Definition nl : string := String (ascii_of_nat 10) EmptyString.
Definition dq : string := String (ascii_of_nat 34) EmptyString.

(** ** Python values *)

(** The values [json.loads] can produce.  A float carries the text Python
    prints for it and whether it is non-zero: the program only formats
    values and tests their truth. A dict is its list of items in insertion
    order; [dict_lookup] reads the first item with the key. *)
#[warnings="-register-all"]
Inductive value : Type :=
| VNone
| VBool (b : bool)
| VInt (z : Z)
| VFloat (text : string) (nonzero : bool)
| VStr (s : string)
| VList (l : list value)
| VDict (d : list (string * value)).

Definition dict : Type := list (string * value).

Inductive exn : Type :=
| KeyError (key : string)
| TypeError
| AttributeError
| IndexError
| StreamlitAPIException
| ExternalError (msg : string).

Inductive result (A : Type) : Type :=
| Ok (a : A)
| Raise (e : exn).
Arguments Ok {A} a.
Arguments Raise {A} e.

Definition rbind {A B} (r : result A) (k : A -> result B) : result B :=
  match r with
  | Ok a => k a
  | Raise e => Raise e
  end.

Notation "'let?' x ':=' r 'in' k" := (rbind r (fun x => k))
  (at level 10, x name, r at level 100, k at level 200).

Fixpoint dict_lookup (k : string) (d : dict) : option value :=
  match d with
  | [] => None
  | (k', v) :: d' => if String.eqb k k' then Some v else dict_lookup k d'
  end.

Definition has_key (k : string) (d : dict) : bool :=
  match dict_lookup k d with Some _ => true | None => false end.

(** [v[k]] for a string key [k]. *)
Definition getitem (v : value) (k : string) : result value :=
  match v with
  | VDict d =>
      match dict_lookup k d with
      | Some x => Ok x
      | None => Raise (KeyError k)
      end
  | _ => Raise TypeError
  end.

(** [v.get(k, default)]: only dicts have the method. *)
Definition get_default (v : value) (k : string) (default : value) : result value :=
  match v with
  | VDict d =>
      match dict_lookup k d with
      | Some x => Ok x
      | None => Ok default
      end
  | _ => Raise AttributeError
  end.

(** [v.get(k)]. *)
Definition get (v : value) (k : string) : result value := get_default v k VNone.

(** [bool(v)]. *)
Definition truthy (v : value) : bool :=
  match v with
  | VNone => false
  | VBool b => b
  | VInt z => negb (Z.eqb z 0)
  | VFloat _ nz => nz
  | VStr s => negb (String.eqb s EmptyString)
  | VList l => match l with [] => false | _ => true end
  | VDict d => match d with [] => false | _ => true end
  end.

(** [needle in s] on strings. *)
Fixpoint is_substring (needle s : string) : bool :=
  String.prefix needle s ||
  match s with
  | EmptyString => false
  | String _ s' => is_substring needle s'
  end.

Definition is_str_eq (needle : string) (v : value) : bool :=
  match v with
  | VStr s => String.eqb needle s
  | _ => false
  end.

(** [needle in v] for a string [needle]: substring of a string, element of
    a list, key of a dict; other values are not iterable. *)
Definition contains (needle : string) (v : value) : result bool :=
  match v with
  | VStr s => Ok (is_substring needle s)
  | VList l => Ok (existsb (is_str_eq needle) l)
  | VDict d => Ok (has_key needle d)
  | _ => Raise TypeError
  end.

(** [str.lower()], on the ASCII letters; other bytes are left as they are. *)
Definition lower_ascii (c : ascii) : ascii :=
  let n := nat_of_ascii c in
  if (65 <=? n)%nat && (n <=? 90)%nat then ascii_of_nat (n + 32) else c.

Fixpoint lower_string (s : string) : string :=
  match s with
  | EmptyString => EmptyString
  | String c s' => String (lower_ascii c) (lower_string s')
  end.

(** [v.lower()]: only strings have the method. *)
Definition lower (v : value) : result string :=
  match v with
  | VStr s => Ok (lower_string s)
  | _ => Raise AttributeError
  end.

Fixpoint chars (s : string) : list value :=
  match s with
  | EmptyString => []
  | String c s' => VStr (String c EmptyString) :: chars s'
  end.

(** What [for x in v] visits. *)
Definition iterate (v : value) : result (list value) :=
  match v with
  | VList l => Ok l
  | VStr s => Ok (chars s)
  | VDict d => Ok (map (fun kv => VStr (fst kv)) d)
  | _ => Raise TypeError
  end.

(** [len(v)]. *)
Definition len (v : value) : result nat :=
  match v with
  | VList l => Ok (List.length l)
  | VStr s => Ok (String.length s)
  | VDict d => Ok (List.length d)
  | _ => Raise TypeError
  end.

(** How often [needle] starts in [s]. *)
Fixpoint occurrences (needle s : string) : nat :=
  (if String.prefix needle s then 1 else 0)
  + match s with
    | EmptyString => 0
    | String _ s' => occurrences needle s'
    end.

(** [history[-1]]. *)
Definition last_item (l : list value) : result value :=
  match last l with
  | Some x => Ok x
  | None => Raise IndexError
  end.

Fixpoint join (sep : string) (l : list string) : string :=
  match l with
  | [] => EmptyString
  | [x] => x
  | x :: rest => x +:+ sep +:+ join sep rest
  end.

Fixpoint concat_strings (l : list string) : string :=
  match l with
  | [] => EmptyString
  | x :: rest => x +:+ concat_strings rest
  end.

Fixpoint rmap {A B} (f : A -> result B) (l : list A) : result (list B) :=
  match l with
  | [] => Ok []
  | x :: rest =>
      let? y := f x in
      let? ys := rmap f rest in
      Ok (y :: ys)
  end.

(** [for i, x in enumerate(l)] over a loop state that may raise. *)
Fixpoint for_enumerate {A St} (f : nat -> A -> St -> result St)
    (i : nat) (l : list A) (s : St) : result St :=
  match l with
  | [] => Ok s
  | x :: rest =>
      let? s' := f i x s in
      for_enumerate f (S i) rest s'
  end.

(** ** The graph under construction *)

Fixpoint has_colon (s : string) : bool :=
  match s with
  | EmptyString => false
  | String c s' => Ascii.eqb c ":" || has_colon s'
  end.

(** [s.partition(':')]: what is before the first colon, and what is after
    it (empty when there is none). *)
Fixpoint partition (s : string) : string * string :=
  match s with
  | EmptyString => (EmptyString, EmptyString)
  | String c s' =>
      if Ascii.eqb c ":" then (EmptyString, s')
      else let (before, after) := partition s' in (String c before, after)
  end.

(** The end of an edge as graphviz writes it: a node, and a port and a
    compass point when the name given to [edge] holds colons. *)
Inductive endpoint : Type :=
| Endpoint (node : string) (port compass : option string).

Definition plain (node : string) : endpoint := Endpoint node None None.

(** graphviz's [quote_edge]: [edge] reads its names as node[:port[:compass]],
    while [node] takes the whole name. *)
Definition quote_edge (identifier : string) : endpoint :=
  let (node, rest) := partition identifier in
  if String.eqb rest EmptyString then Endpoint node None None
  else
    let (port, compass) := partition rest in
    Endpoint node (Some port)
      (if String.eqb compass EmptyString then None else Some compass).

(** A [graphviz.Digraph] is its output format and its body: the statements
    in the order [attr], [node] and [edge] were called.  Statements are
    never merged, as in the library. *)
Definition attrs : Type := list (string * string).

Inductive stmt : Type :=
| AttrStmt (kw : option string) (a : attrs)
| NodeStmt (name : string) (a : attrs)
| EdgeStmt (tail head : endpoint) (a : attrs).

Record Digraph : Type := { format : string; body : list stmt }.

(** [dot.node], [dot.edge], [dot.attr]: append one statement. *)
Definition dot_node (dot : Digraph) (name : string) (a : attrs) : Digraph :=
  {| format := format dot; body := body dot ++ [NodeStmt name a] |}.
Definition dot_edge (dot : Digraph) (tail head : string) (a : attrs) : Digraph :=
  {| format := format dot;
     body := body dot ++ [EdgeStmt (quote_edge tail) (quote_edge head) a] |}.
Definition dot_attr (dot : Digraph) (kw : option string) (a : attrs) : Digraph :=
  {| format := format dot; body := body dot ++ [AttrStmt kw a] |}.

(** The colour expression of line 158, on the lower-cased risk level. *)
Definition risk_color (risk : string) : string :=
  if is_substring "critical" risk then "#8B0000"
  else if is_substring "high" risk then "#B22222"
  else if is_substring "low" risk then "#006400"
  else "#003366".

Section Formatting.

(** Python's [repr] of a list or dict: a builtin, left abstract. *)
Variable repr : value -> string.

(** What an f-string prints for [{v}]. *)
Definition fmt (v : value) : string :=
  match v with
  | VNone => "None"
  | VBool true => "True"
  | VBool false => "False"
  | VInt z => pretty z
  | VFloat text _ => text
  | VStr s => s
  | VList _ | VDict _ => repr v
  end.

(** *** generate_markdown_report (lines 128-139) *)

Definition report_step (i : nat) (step : value) (report : string) : result string :=
  let? title := getitem step "title" in
  let report :=
    report +:+ "## Step " +:+ pretty (Z.of_nat i + 1)%Z +:+ ": " +:+ fmt title +:+ nl in
  let? description := getitem step "description" in
  let report := report +:+ "_" +:+ fmt description +:+ "_" +:+ nl +:+ nl in
  let? has_trace := contains "reasoning_trace" step in
  let? report :=
    if has_trace : bool then
      let? trace := getitem step "reasoning_trace" in
      Ok (report +:+ "> **Reasoning:** " +:+ fmt trace +:+ nl +:+ nl)
    else Ok report in
  let? has_risk := contains "risk_level" step in
  let? report :=
    if has_risk : bool then
      let? risk := getitem step "risk_level" in
      let? prob := getitem step "probability" in
      Ok (report +:+ "**Metrics:** Risk: " +:+ fmt risk +:+ " | Prob: " +:+ fmt prob
            +:+ "%" +:+ nl)
    else Ok report in
  Ok (report +:+ "---" +:+ nl).

(** [now] is what [time.strftime('%Y-%m-%d %H:%M:%S')] returns. *)
Definition generate_markdown_report (now : string) (history : list value)
    : result string :=
  let report := "# TIMEFOLD STRATEGIC REPORT" +:+ nl in
  let report := report +:+ "**Date:** " +:+ now +:+ nl +:+ nl in
  for_enumerate report_step 0 history report.

(** *** draw_advanced_tree (lines 141-166) *)

Definition spine_step (i : nat) (step : value) (dot : Digraph) : result Digraph :=
  let node_id := "H_" +:+ pretty (Z.of_nat i) in
  let? title := getitem step "title" in
  let label := fmt title in
  let dot :=
    dot_node dot node_id
      [("label", label); ("shape", "box"); ("style", "filled");
       ("fillcolor", "#21262D"); ("penwidth", "2.0"); ("color", "white")] in
  Ok (if (0 <? i)%nat
      then dot_edge dot ("H_" +:+ pretty (Z.of_nat i - 1)%Z) node_id []
      else dot).

Definition leaf_label (title time_horizon probability : value) : string :=
  "<<TABLE BORDER=" +:+ dq +:+ "0" +:+ dq +:+ " CELLBORDER=" +:+ dq +:+ "0" +:+ dq
  +:+ " CELLSPACING=" +:+ dq +:+ "0" +:+ dq +:+ "><TR><TD><B>" +:+ fmt title
  +:+ "</B></TD></TR>" +:+ nl
  +:+ "            <TR><TD><FONT POINT-SIZE=" +:+ dq +:+ "10" +:+ dq +:+ ">"
  +:+ fmt time_horizon +:+ "</FONT></TD></TR>" +:+ nl
  +:+ "            <TR><TD><FONT POINT-SIZE=" +:+ dq +:+ "10" +:+ dq +:+ ">Prob: "
  +:+ fmt probability +:+ "%</FONT></TD></TR></TABLE>>".

Definition leaf_step (last_id : string) (_ : nat) (opt : value) (dot : Digraph)
    : result Digraph :=
  let? id := getitem opt "id" in
  let opt_id := "OPT_" +:+ fmt id in
  let? r := get_default opt "risk_level" (VStr EmptyString) in
  let? risk := lower r in
  let color := risk_color risk in
  let? title := getitem opt "title" in
  let? time_horizon := getitem opt "time_horizon" in
  let? probability := getitem opt "probability" in
  let label := leaf_label title time_horizon probability in
  let dot :=
    dot_node dot opt_id
      [("label", label); ("shape", "note"); ("style", "filled"); ("fillcolor", color)] in
  let? risk_level := getitem opt "risk_level" in
  Ok (dot_edge dot last_id opt_id [("label", "Risk: " +:+ fmt risk_level)]).

Definition new_graph : Digraph :=
  let dot := {| format := "png"; body := [] |} in
  let dot := dot_attr dot None [("bgcolor", "#0E1117"); ("rankdir", "LR")] in
  let dot := dot_attr dot (Some "node") [("fontname", "Helvetica"); ("fontcolor", "white")] in
  dot_attr dot (Some "edge")
    [("color", "#555555"); ("arrowsize", "0.7"); ("fontcolor", "#AAAAAA")].

Definition draw_advanced_tree (history : list value) (options : value)
    : result Digraph :=
  let dot := new_graph in
  let? dot := for_enumerate spine_step 0 history dot in
  let last_id := "H_" +:+ pretty (Z.of_nat (List.length history) - 1)%Z in
  if truthy options then
    let? scenarios := get_default options "scenarios" (VList []) in
    let? opts := iterate scenarios in
    for_enumerate (leaf_step last_id) 0 opts dot
  else Ok dot.

End Formatting.

(** ** The world around one run of the script *)

(** A decoded upload ([Image.open(uploaded_file)]). *)
Record image : Type := PILImage { image_data : string }.

Inductive part : Type :=
| PText (text : string)
| PImage (img : image).

Inductive schema : Type := Council | SimulationOutput.

(** [genai.GenerativeModel(model_name=..., generation_config=...)]. *)
Record GenerativeModel : Type := {
  model_name : string;
  response_mime_type : string;
  response_schema : schema
}.

(** What a call into a library outside the repository gives back: a value,
    or an exception with the text [str(e)] shows. *)
Inductive reply (A : Type) : Type :=
| Returns (a : A)
| Fails (msg : string).
Arguments Returns {A} a.
Arguments Fails {A} msg.

(** The buttons.  A Streamlit button is [True] only in the run its click
    triggers, so a run sees at most one of them pressed. *)
Inductive widget : Type :=
| ResetSystem
| CryptoCrash
| Pandemic
| AIBan
| InitializeSystem
| StartSimulation
| InjectChaos
| ExploreThisPath (i : nat).

#[global] Instance widget_eq_dec : EqDecision widget.
Proof. solve_decision. Defined.

Record env : Type := {
  api_key : option string;            (* st.secrets["GOOGLE_API_KEY"], if any *)
  uploaded_file : option image;       (* the sidebar's file uploader *)
  show_reasoning : bool;              (* the sidebar's toggle *)
  user_input : string;                (* the text area of the INPUT stage *)
  clicked : option widget;
  generate_content : GenerativeModel -> list part -> reply string;
                                      (* model.generate_content(inputs).text *)
  clock : string                      (* time.strftime('%Y-%m-%d %H:%M:%S') *)
}.

Definition button (e : env) (w : widget) : bool := bool_decide (clicked e = Some w).

(** What a run shows or sends: every call of [generate_content],
    [st.error], [st.warning], [st.info], [st.write], [st.graphviz_chart] and
    [st.download_button].  The other display calls (markdown, captions,
    metrics, headings) are not logged: they enter the model through the
    lookups that can raise. *)
Inductive event : Type :=
| GenerateContent (model : GenerativeModel) (inputs : list part)
| StError (msg : string)
| StWarning (msg : string)
| StInfo (msg : string)
| StWrite (v : value)
| GraphvizChart (g : Digraph)
| DownloadButton (data : string).

(** ** Session state *)

Inductive Stage : Type := INPUT | RECRUITING | SIMULATING.

(** [st.session_state] after lines 185-188 have filled in the defaults. *)
Record session : Type := {
  stage : Stage;
  history : list value;
  agents : value;
  simulation : value
}.

(** The defaults of lines 185-188; also what the next run sees after
    [st.session_state.clear()]. *)
Definition fresh_session : session :=
  {| stage := INPUT; history := []; agents := VNone; simulation := VNone |}.

Definition set_stage (x : Stage) (s : session) : session :=
  {| stage := x; history := history s; agents := agents s; simulation := simulation s |}.
Definition append_history (x : value) (s : session) : session :=
  {| stage := stage s; history := history s ++ [x]; agents := agents s;
     simulation := simulation s |}.
Definition set_agents (x : value) (s : session) : session :=
  {| stage := stage s; history := history s; agents := x; simulation := simulation s |}.
Definition set_simulation (x : value) (s : session) : session :=
  {| stage := stage s; history := history s; agents := agents s; simulation := x |}.

(** The session after "Explore This Path" on scenario [sc] (lines 307-310). *)
Definition explored (sc : value) (s : session) : session :=
  {| stage := RECRUITING; history := history s ++ [sc]; agents := VNone;
     simulation := VNone |}.

(** ** The script monad *)

(** How a computation ends: with a value, with an uncaught exception, with
    [st.rerun()] or with [st.stop()]. *)
Inductive signal (A : Type) : Type :=
| Val (a : A)
| Exc (e : exn)
| RerunSig
| StopSig.
Arguments Val {A} a.
Arguments Exc {A} e.
Arguments RerunSig {A}.
Arguments StopSig {A}.

Definition M (A : Type) : Type := session -> signal A * session * list event.

Definition ret {A} (a : A) : M A := fun s => (Val a, s, []).

Definition bind {A B} (m : M A) (k : A -> M B) : M B :=
  fun s =>
    match m s with
    | (Val a, s1, ev1) =>
        match k a s1 with
        | (r, s2, ev2) => (r, s2, ev1 ++ ev2)
        end
    | (Exc e, s1, ev1) => (Exc e, s1, ev1)
    | (RerunSig, s1, ev1) => (RerunSig, s1, ev1)
    | (StopSig, s1, ev1) => (StopSig, s1, ev1)
    end.

Notation "'do' x '<-' m ';' k" := (bind m (fun x => k))
  (at level 10, x name, m at level 100, k at level 200).
Notation "m1 ';;' m2" := (bind m1 (fun _ => m2))
  (at level 100, m2 at level 200, right associativity).

Definition read : M session := fun s => (Val s, s, []).
Definition update (f : session -> session) : M unit := fun s => (Val tt, f s, []).
Definition emit (ev : event) : M unit := fun s => (Val tt, s, [ev]).
Definition raise {A} (e : exn) : M A := fun s => (Exc e, s, []).
Definition st_rerun {A} : M A := fun s => (RerunSig, s, []).
Definition st_stop {A} : M A := fun s => (StopSig, s, []).

Definition lift {A} (r : result A) : M A :=
  match r with
  | Ok a => ret a
  | Raise e => raise e
  end.

Definition when (b : bool) (m : M unit) : M unit := if b then m else ret tt.

(** [for i, x in enumerate(l)] in the script. *)
Fixpoint for_each {A} (f : nat -> A -> M unit) (i : nat) (l : list A) : M unit :=
  match l with
  | [] => ret tt
  | x :: rest => f i x ;; for_each f (S i) rest
  end.

(** A computation that leaves the session state as it found it. *)
Definition keeps_state {A} (m : M A) : Prop := forall s, snd (fst (m s)) = s.

(** A computation that keeps a property of the session state. *)
Definition preserves {A} (I : session -> Prop) (m : M A) : Prop :=
  forall s, I s -> I (snd (fst (m s))).

(** A function that logs but does not touch the session state. *)
Definition IO (A : Type) : Type := result A * list event.

Definition liftIO {A} (io : IO A) : M A :=
  fun s =>
    match io with
    | (Ok a, ev) => (Val a, s, ev)
    | (Raise e, ev) => (Exc e, s, ev)
    end.

(** ** The program *)

Section Program.

(** Python's [repr] of containers and [json.loads]: library code. *)
Variable repr : value -> string.
Variable json_loads : string -> reply value.

(** *** recruit_agents (lines 84-96) *)

Definition recruit_model : GenerativeModel :=
  {| model_name := "gemini-2.5-flash";
     response_mime_type := "application/json";
     response_schema := Council |}.

Definition recruit_prompt (context : value) : string :=
  "MISSION: Recruit 3 distinct strategic experts to analyze: " +:+ fmt repr context
  +:+ ". RULES: No honorifics. Diverse perspectives.".

Definition recruit_inputs (context : value) (image_part : option image) : list part :=
  let inputs := [PText (recruit_prompt context)] in
  match image_part with
  | Some img => (inputs ++ [PImage img]) ++ [PText "Analyze visual data."]
  | None => inputs
  end.

Definition recruit_agents (e : env) (context : value) (image_part : option image)
    : IO value :=
  let model := recruit_model in
  let inputs := recruit_inputs context image_part in
  match generate_content e model inputs with
  | Fails msg => (Raise (ExternalError msg), [GenerateContent model inputs])
  | Returns text =>
      match json_loads text with
      | Fails msg => (Raise (ExternalError msg), [GenerateContent model inputs])
      | Returns v => (Ok v, [GenerateContent model inputs])
      end
  end.

(** *** run_simulation (lines 98-126) *)

Definition simulation_model : GenerativeModel :=
  {| model_name := "gemini-2.5-flash";
     response_mime_type := "application/json";
     response_schema := SimulationOutput |}.

(** One line of [agents_desc]. *)
Definition agent_line (a : value) : result string :=
  let? name := getitem a "name" in
  let? role := getitem a "role" in
  let? stance := getitem a "stance" in
  Ok ("- " +:+ fmt repr name +:+ " (" +:+ fmt repr role +:+ "): " +:+ fmt repr stance).

Definition agents_desc (agents : value) : result string :=
  let? council := getitem agents "agents" in
  let? members := iterate council in
  let? lines := rmap agent_line members in
  Ok (join nl lines).

Definition black_swan_instruction : string :=
  "⚠️ INJECT A BLACK SWAN EVENT: Introduce a low-probability, high-impact disruption into the scenarios.".

Definition chaos_prompt (inject_chaos : bool) : string :=
  if inject_chaos then black_swan_instruction else EmptyString.

Definition simulation_prompt (desc : string) (context : value) (inject_chaos : bool)
    : string :=
  nl +:+ "    You are TIMEFOLD, an Advanced Strategic Foresight Engine." +:+ nl
  +:+ "    ACTIVE COUNCIL: " +:+ desc +:+ nl
  +:+ "    TASK: Simulate a debate, generate 3 divergent future scenarios. Include reasoning traces and confidence metrics."
  +:+ nl
  +:+ "    " +:+ chaos_prompt inject_chaos +:+ nl
  +:+ "    CURRENT STATE: " +:+ fmt repr context +:+ nl
  +:+ "    ".

Definition simulation_inputs (prompt : string) (image_part : option image) : list part :=
  let inputs := [PText prompt] in
  match image_part with
  | Some img => inputs ++ [PImage img; PText "Incorporate visual insights."]
  | None => inputs
  end.

Definition run_simulation (e : env) (context agents : value)
    (image_part : option image) (inject_chaos : bool) : IO value :=
  let model := simulation_model in
  match agents_desc agents with
  | Raise ex => (Raise ex, [])
  | Ok desc =>
      let prompt := simulation_prompt desc context inject_chaos in
      let inputs := simulation_inputs prompt image_part in
      (* try: *)
      match generate_content e model inputs with
      | Fails msg =>
          (Ok VNone, [GenerateContent model inputs; StError ("Simulation Error: " +:+ msg)])
      | Returns text =>
          match json_loads text with
          | Fails msg =>
              (Ok VNone,
               [GenerateContent model inputs; StError ("Simulation Error: " +:+ msg)])
          | Returns v => (Ok v, [GenerateContent model inputs])
          end
      end
  end.

(** *** The INPUT stage (lines 193-221) *)

Definition start_entry (description : string) : value :=
  VDict [("title", VStr "START"); ("description", VStr description)].

Definition preset (description : string) : M unit :=
  update (append_history (start_entry description)) ;;
  update (set_stage RECRUITING) ;;
  st_rerun.

Definition input_stage (e : env) (image_part : option image) : M unit :=
  when (button e CryptoCrash)
    (preset "Bitcoin crashes below $30k, triggering global regulatory crackdown.") ;;
  when (button e Pandemic)
    (preset "A new respiratory virus with high transmission rate is detected in major transit hubs.") ;;
  when (button e AIBan)
    (preset "UN passes a resolution banning autonomous AI development above a certain compute threshold.") ;;
  when (button e InitializeSystem)
    (if negb (String.eqb (user_input e) EmptyString) || bool_decide (is_Some image_part)
     then
       let input_text :=
         if negb (String.eqb (user_input e) EmptyString) then user_input e
         else "Analyze the uploaded visual data." in
       update (append_history (start_entry input_text)) ;;
       update (set_stage RECRUITING) ;;
       st_rerun
     else emit (StWarning "Please enter text or upload an image.")).

(** *** The RECRUITING stage (lines 224-250) *)

(** [last_context = st.session_state.history[-1]['description']]. *)
Definition last_context : M value :=
  do s <- read;
  do last <- lift (last_item (history s));
  lift (getitem last "description").

(** One agent card: [cols[i]] of the three columns, then the four fields
    the markup prints. *)
Definition agent_card (i : nat) (agent : value) : M unit :=
  when (3 <=? i)%nat (raise IndexError) ;;
  do _ <- lift (getitem agent "avatar");
  do _ <- lift (getitem agent "name");
  do _ <- lift (getitem agent "role");
  do _ <- lift (getitem agent "stance");
  ret tt.

Definition recruiting_stage (e : env) (image_part : option image) : M unit :=
  do context <- last_context;
  emit (StWrite (VStr "Processing context and visual data...")) ;;
  emit (StWrite (VStr "Recruiting domain experts...")) ;;
  do council <- liftIO (recruit_agents e context image_part);
  update (set_agents council) ;;
  do s <- read;
  do members <- lift (let? a := getitem (agents s) "agents" in iterate a);
  for_each agent_card 0 members ;;
  when (button e StartSimulation)
    (update (set_stage SIMULATING) ;; st_rerun).

(** *** The SIMULATING stage (lines 252-320) *)

(** One scenario card with its button (lines 283-311). *)
Definition scenario_card (e : env) (i : nat) (sc : value) : M unit :=
  do risk <- lift (getitem sc "risk_level");
  do critical <- lift (contains "Critical" risk);
  (if critical : bool then ret tt
   else
     do risk <- lift (getitem sc "risk_level");
     do _ <- lift (contains "High" risk);
     ret tt) ;;
  do _ <- lift (getitem sc "title");
  do _ <- lift (getitem sc "time_horizon");
  do _ <- lift (getitem sc "probability");
  do _ <- lift (getitem sc "impact_score");
  do description <- lift (getitem sc "description");
  emit (StWrite description) ;;
  when (show_reasoning e)
    (do _ <- lift (getitem sc "reasoning_trace");
     do _ <- lift (getitem sc "data_confidence");
     do _ <- lift (getitem sc "assumption_stability");
     ret tt) ;;
  when (button e (ExploreThisPath i))
    (update (append_history sc) ;;
     update (set_simulation VNone) ;;
     update (set_agents VNone) ;;
     update (set_stage RECRUITING) ;;
     st_rerun).

(** Lines 266-320: what the stage shows once the simulation is settled. *)
Definition simulating_view (e : env) (inject_chaos : bool) : M unit :=
  do s <- read;
  do g <- lift (draw_advanced_tree repr (history s) (simulation s));
  emit (GraphvizChart g) ;;
  do synthesis <- lift (getitem (simulation s) "synthesis");
  emit (StWrite synthesis) ;;
  do alert <- lift (get (simulation s) "black_swan_alert");
  when (truthy alert || inject_chaos)
    (do shown <- lift (get_default (simulation s) "black_swan_alert"
                         (VStr "Chaos Injection Active"));
     emit (StError ("⚠️ BLACK SWAN / CHAOS DETECTED: " +:+ fmt repr shown))) ;;
  do scenarios <- lift (get_default (simulation s) "scenarios" (VList []));
  do n <- lift (len scenarios);
  (* st.columns(0) is refused by Streamlit *)
  when (n =? 0)%nat (raise StreamlitAPIException) ;;
  do cards <- lift (iterate scenarios);
  for_each (scenario_card e) 0 cards ;;
  do s <- read;
  do report_md <- lift (generate_markdown_report repr (clock e) (history s));
  emit (DownloadButton report_md).

Definition simulating_stage (e : env) (image_part : option image) : M unit :=
  do context <- last_context;
  let inject_chaos := button e InjectChaos in
  when inject_chaos (update (set_simulation VNone)) ;;
  do s <- read;
  when (negb (truthy (simulation s)))
    (do r <- liftIO (run_simulation e context (agents s) image_part inject_chaos);
     update (set_simulation r)) ;;
  simulating_view e inject_chaos.

(** *** One run of the script *)

Definition api_key_missing (e : env) : bool :=
  match api_key e with
  | None => true
  | Some k => String.eqb k EmptyString
  end.

Definition script (e : env) : M unit :=
  if api_key_missing e then
    emit (StError "SECURITY ALERT: API Key not found. Please set `GOOGLE_API_KEY` in Streamlit secrets") ;;
    emit (StInfo "If running locally create a `.streamlit/secrets.toml` file") ;;
    st_stop
  else
    let image_part := uploaded_file e in
    when (button e ResetSystem) (update (fun _ => fresh_session) ;; st_rerun) ;;
    do s <- read;
    match stage s with
    | INPUT => input_stage e image_part
    | RECRUITING => recruiting_stage e image_part
    | SIMULATING => simulating_stage e image_part
    end.

End Program.

(** ** The declared shapes (lines 58-82) *)

Definition is_str (v : value) : bool := match v with VStr _ => true | _ => false end.
Definition is_int (v : value) : bool := match v with VInt _ => true | _ => false end.
Definition is_dict (v : value) : bool := match v with VDict _ => true | _ => false end.

Definition field_is (p : value -> bool) (k : string) (v : value) : bool :=
  match getitem v k with
  | Ok x => p x
  | Raise _ => false
  end.

Definition has_field (k : string) (v : value) : bool := field_is (fun _ => true) k v.

(** [class AgentProfile]. *)
Definition AgentProfile_ok (v : value) : bool :=
  field_is is_str "name" v && field_is is_str "role" v
  && field_is is_str "stance" v && field_is is_str "avatar" v.

(** [class ScenarioNode]. *)
Definition ScenarioNode_ok (v : value) : bool :=
  field_is is_str "id" v && field_is is_str "title" v
  && field_is is_str "description" v && field_is is_int "probability" v
  && field_is is_str "time_horizon" v && field_is is_str "risk_level" v
  && field_is is_int "impact_score" v && field_is is_int "data_confidence" v
  && field_is is_int "assumption_stability" v && field_is is_str "reasoning_trace" v.

(** [class SimulationOutput]; [black_swan_alert] is optional. *)
Definition SimulationOutput_ok (v : value) : bool :=
  match getitem v "scenarios" with
  | Ok (VList l) => forallb ScenarioNode_ok l
  | _ => false
  end
  && field_is is_str "synthesis" v
  && match get v "black_swan_alert" with
     | Ok VNone | Ok (VStr _) => true
     | _ => false
     end.

(** What the loops read of an entry. *)

(** A council member whose card can be drawn: the four printed fields. *)
Definition card_ready (agent : value) : bool :=
  has_field "avatar" agent && has_field "name" agent
  && has_field "role" agent && has_field "stance" agent.

(** A council member the simulation prompt can describe: the three fields
    of its line. *)
Definition describable (agent : value) : bool :=
  has_field "name" agent && has_field "role" agent && has_field "stance" agent.

(** A council the simulation prompt can describe: a dict whose 'agents' is
    a list of describable members, or something empty to iterate over (the
    characters of a string and the keys of a dict have no fields). *)
Definition describable_council (agents : value) : bool :=
  match agents with
  | VDict d =>
      match dict_lookup "agents" d with
      | Some (VList members) => forallb describable members
      | Some (VStr s) => String.eqb s EmptyString
      | Some (VDict items) => match items with [] => true | _ => false end
      | _ => false
      end
  | _ => false
  end.

(** The session has a last history entry with a description. *)
Definition has_context (s : session) : bool :=
  match last (history s) with
  | Some entry => has_field "description" entry
  | None => false
  end.

(** The cards from column [i] on fit the three columns. *)
Definition cards_fit (i : nat) (members : list value) : bool :=
  forallb card_ready members && (i + List.length members <=? 3)%nat.

(** A scenario the tree can draw as a leaf. *)
Definition leaf_ready (opt : value) : bool :=
  has_field "id" opt && field_is is_str "risk_level" opt && has_field "title" opt
  && has_field "time_horizon" opt && has_field "probability" opt.

(** A history entry the report can print: title and description, and a
    probability next to a risk level. *)
Definition report_ready (step : value) : bool :=
  has_field "title" step && has_field "description" step
  && (negb (has_field "risk_level" step) || has_field "probability" step).

(** Every entry of the history can be printed by the report (and so has a
    title for the tree). *)
Definition printable (s : session) : Prop :=
  Forall (fun step => report_ready step = true) (history s).

(** The sessions a user can reach: runs of the script from a fresh session. *)
Inductive reachable (repr : value -> string) (json_loads : string -> reply value)
    : session -> Prop :=
| reachable_fresh : reachable repr json_loads fresh_session
| reachable_run (e : env) (s : session) :
    reachable repr json_loads s ->
    reachable repr json_loads (snd (fst (script repr json_loads e s))).

(** ** The outputs as the specification describes them *)

(** A field of a record known to have it. *)
Definition field (k : string) (v : value) : value :=
  match getitem v k with
  | Ok x => x
  | Raise _ => VNone
  end.

Definition node_stmts (g : Digraph) : list (string * attrs) :=
  omap (fun st => match st with NodeStmt n a => Some (n, a) | _ => None end) (body g).

Definition edge_stmts (g : Digraph) : list (endpoint * endpoint * attrs) :=
  omap (fun st => match st with EdgeStmt t h a => Some (t, h, a) | _ => None end) (body g).

Section Described.

Variable repr : value -> string.

Definition spine_id (i : nat) : string := "H_" +:+ pretty (Z.of_nat i).

(** One node per history entry, labelled with its title. *)
Definition described_spine_node (i : nat) (step : value) : string * attrs :=
  (spine_id i,
   [("label", fmt repr (field "title" step)); ("shape", "box"); ("style", "filled");
    ("fillcolor", "#21262D"); ("penwidth", "2.0"); ("color", "white")]).

(** Entry [i] points to entry [i+1]. *)
Definition spine_edge (i : nat) : endpoint * endpoint * attrs :=
  (plain (spine_id i), plain (spine_id (S i)), []).

Definition described_spine_edges (n : nat) : list (endpoint * endpoint * attrs) :=
  map spine_edge (seq 0 (Nat.pred n)).

Definition leaf_id (opt : value) : string := "OPT_" +:+ fmt repr (field "id" opt).

(** The fixed colour of a risk level. *)
Definition described_color (risk_level : value) : string :=
  match risk_level with
  | VStr r => risk_color (lower_string r)
  | _ => "#003366"
  end.

Definition described_leaf_node (opt : value) : string * attrs :=
  (leaf_id opt,
   [("label", leaf_label repr (field "title" opt) (field "time_horizon" opt)
                (field "probability" opt));
    ("shape", "note"); ("style", "filled");
    ("fillcolor", described_color (field "risk_level" opt))]).

(** The edge [draw_advanced_tree] asks for: graphviz reads both names. *)
Definition drawn_leaf_edge (source : string) (opt : value)
    : endpoint * endpoint * attrs :=
  (quote_edge source, quote_edge (leaf_id opt),
   [("label", "Risk: " +:+ fmt repr (field "risk_level" opt))]).

(** The edge from the node [source] to the leaf of [opt]. *)
Definition described_leaf_edge (source : string) (opt : value)
    : endpoint * endpoint * attrs :=
  (plain source, plain (leaf_id opt),
   [("label", "Risk: " +:+ fmt repr (field "risk_level" opt))]).

(** The line of the prompt for one council member. *)
Definition described_agent_line (agent : value) : string :=
  "- " +:+ fmt repr (field "name" agent) +:+ " (" +:+ fmt repr (field "role" agent)
  +:+ "): " +:+ fmt repr (field "stance" agent).

(** One section of the report. *)
Definition described_section (i : nat) (step : value) : string :=
  "## Step " +:+ pretty (Z.of_nat (S i)) +:+ ": " +:+ fmt repr (field "title" step) +:+ nl
  +:+ "_" +:+ fmt repr (field "description" step) +:+ "_" +:+ nl +:+ nl
  +:+ (if has_field "reasoning_trace" step
       then "> **Reasoning:** " +:+ fmt repr (field "reasoning_trace" step) +:+ nl +:+ nl
       else EmptyString)
  +:+ (if has_field "risk_level" step
       then "**Metrics:** Risk: " +:+ fmt repr (field "risk_level" step) +:+ " | Prob: "
            +:+ fmt repr (field "probability" step) +:+ "%" +:+ nl
       else EmptyString)
  +:+ "---" +:+ nl.

Definition described_report (now : string) (history : list value) : string :=
  "# TIMEFOLD STRATEGIC REPORT" +:+ nl
  +:+ "**Date:** " +:+ now +:+ nl +:+ nl
  +:+ concat_strings (imap described_section history).

End Described.

(** ** Sample data *)

Module Demo.

(** A stand-in for [repr] on containers. *)
Definition repr (v : value) : string := "{...}".

(** JSON text of a value, for strings without escapes. *)
Fixpoint to_json (v : value) : string :=
  match v with
  | VNone => "null"
  | VBool true => "true"
  | VBool false => "false"
  | VInt z => pretty z
  | VFloat text _ => text
  | VStr s => dq +:+ s +:+ dq
  | VList l => "[" +:+ join ", " (map to_json l) +:+ "]"
  | VDict d =>
      "{" +:+ join ", " (map (fun kv => dq +:+ fst kv +:+ dq +:+ ": " +:+ to_json (snd kv)) d)
      +:+ "}"
  end.

Definition agent (name role stance avatar : string) : value :=
  VDict [("name", VStr name); ("role", VStr role); ("stance", VStr stance);
         ("avatar", VStr avatar)].

Definition vega : value := agent "Vega" "Supply Chain Analyst" "Risk-Averse" "V".
Definition orion : value := agent "Orion" "Policy Strategist" "Disruptive" "O".
Definition lyra : value := agent "Lyra" "Market Economist" "Pragmatic" "L".
Definition atlas : value := agent "Atlas" "Security Analyst" "Hawkish" "A".

Definition council (members : list value) : value := VDict [("agents", VList members)].

Definition scenario (id title risk_level : string) (probability : Z) : value :=
  VDict [("id", VStr id); ("title", VStr title); ("description", VStr "What follows.");
         ("probability", VInt probability); ("time_horizon", VStr "Mid Term (1-2y)");
         ("risk_level", VStr risk_level); ("impact_score", VInt 7);
         ("data_confidence", VInt 60); ("assumption_stability", VInt 40);
         ("reasoning_trace", VStr "Because of the debate.")].

Definition sc_1 : value := scenario "sc_1" "Soft landing" "Low" 50.
Definition sc_2 : value := scenario "sc_2" "Hard fork" "High" 30.
Definition sc_3 : value := scenario "sc_3" "Total ban" "Critical" 20.


Definition batch (scenarios : list value) : value :=
  VDict [("scenarios", VList scenarios); ("synthesis", VStr "The council disagrees.");
         ("black_swan_alert", VNone)].

Definition seed : value := start_entry "AI Ban".

(** The texts this [json.loads] knows; anything else is malformed. *)
Definition known : list value :=
  [council [vega; orion; lyra]; council [vega; orion]; council [vega; orion; lyra; atlas];
   batch [sc_1; sc_2; sc_3]; VDict [("scenarios", VList [])]].


Definition json_loads (text : string) : reply value :=
  match List.find (fun v => String.eqb text (to_json v)) known with
  | Some v => Returns v
  | None => Fails "Expecting value: line 1 column 1 (char 0)"
  end.

(** A run with the key configured, no upload, the toggle on, empty text. *)
Definition world (click : option widget) (answer : reply string) : env :=
  {| api_key := Some "key";
     uploaded_file := None;
     show_reasoning := true;
     user_input := EmptyString;
     clicked := click;
     generate_content := fun _ _ => answer;
     clock := "2026-01-01 00:00:00" |}.

Definition photo : image := PILImage "png".

Definition with_upload (img : image) (e : env) : env :=
  {| api_key := api_key e;
     uploaded_file := Some img;
     show_reasoning := show_reasoning e;
     user_input := user_input e;
     clicked := clicked e;
     generate_content := generate_content e;
     clock := clock e |}.

(** [agents_desc] of the three-member council. *)
Definition council_desc : string :=
  join nl ["- Vega (Supply Chain Analyst): Risk-Averse";
           "- Orion (Policy Strategist): Disruptive";
           "- Lyra (Market Economist): Pragmatic"].


(** A chosen scenario that lost its probability. *)
Definition no_probability : dict :=
  [("title", VStr "Hard fork"); ("description", VStr "What follows.");
   ("risk_level", VStr "High")].

Definition simulating (sim : value) : session :=
  {| stage := SIMULATING; history := [seed]; agents := council [vega; orion; lyra];
     simulation := sim |}.

Definition recruiting : session :=
  {| stage := RECRUITING; history := [seed]; agents := VNone; simulation := VNone |}.

End Demo.

(** ** How a run can end *)

(** The requests a run sent to the backend. *)
Fixpoint calls (evs : list event) : nat :=
  match evs with
  | [] => 0
  | GenerateContent _ _ :: rest => S (calls rest)
  | _ :: rest => calls rest
  end.

Definition silent {A} (m : M A) : Prop := forall s, calls (snd (m s)) = 0%nat.

(** [m] run from [s] leaves a state that satisfies [Keep] or, and then it
    ends with st.rerun(), one that satisfies [Jump]. *)
Definition ends {A} (m : M A) (s : session) (Keep Jump : session -> Prop) : Prop :=
  match m s with
  | (RerunSig, s', _) => Keep s' \/ Jump s'
  | (_, s', _) => Keep s'
  end.

(** The scenarios the SIMULATING stage draws cards for (lines 280-283). *)
Definition scenario_cards (sim : value) : result (list value) :=
  let? scenarios := get_default sim "scenarios" (VList []) in
  iterate scenarios.

(** The buttons of the INPUT stage that start a session. *)
Definition starts (w : widget) : bool :=
  match w with
  | CryptoCrash | Pandemic | AIBan | InitializeSystem => true
  | _ => false
  end.

(** A run that did not move: stage and history are what they were, only
    the RECRUITING stage may have replaced the council and only the
    SIMULATING stage the simulation. *)
Definition settled (s s' : session) : Prop :=
  stage s' = stage s
  /\ history s' = history s
  /\ (stage s <> RECRUITING -> agents s' = agents s)
  /\ (stage s <> SIMULATING -> simulation s' = simulation s).

(** The moves of the workflow, each with the button that causes it. *)
Inductive transition (e : env) (s : session) : session -> Prop :=
| go_reset :
    clicked e = Some ResetSystem ->
    transition e s fresh_session
| go_recruit (w : widget) (description : string) :
    stage s = INPUT ->
    clicked e = Some w ->
    starts w = true ->
    transition e s
      {| stage := RECRUITING; history := history s ++ [start_entry description];
         agents := agents s; simulation := simulation s |}
| go_simulate (council : value) :
    stage s = RECRUITING ->
    clicked e = Some StartSimulation ->
    history s <> [] ->
    transition e s
      {| stage := SIMULATING; history := history s; agents := council;
         simulation := simulation s |}
| go_explore (i : nat) (sc sim : value) (cards : list value) :
    stage s = SIMULATING ->
    clicked e = Some (ExploreThisPath i) ->
    (truthy (simulation s) = true -> sim = simulation s) ->
    scenario_cards sim = Ok cards ->
    cards !! i = Some sc ->
    report_ready sc = true ->
    transition e s (explored sc s).

(** A stage other than INPUT has a history to read its context from. *)
Definition anchored (s : session) : Prop := stage s = INPUT \/ history s <> [].

(** ** More sample data *)

Module Sample.

(** A scenario that lost its risk level. *)
Definition no_risk_level : value :=
  VDict [("id", VStr "sc_9"); ("title", VStr "Drift"); ("description", VStr "What follows.");
         ("probability", VInt 10); ("time_horizon", VStr "Long Term (5y+)")].

Definition with_text (text : string) (e : env) : env :=
  {| api_key := api_key e;
     uploaded_file := uploaded_file e;
     show_reasoning := show_reasoning e;
     user_input := text;
     clicked := clicked e;
     generate_content := generate_content e;
     clock := clock e |}.

Definition without_key (e : env) : env :=
  {| api_key := None;
     uploaded_file := uploaded_file e;
     show_reasoning := show_reasoning e;
     user_input := user_input e;
     clicked := clicked e;
     generate_content := generate_content e;
     clock := clock e |}.

(** A session that lost its history. *)
Definition adrift : session :=
  {| stage := SIMULATING; history := []; agents := VNone; simulation := VNone |}.

(** The first run of a session: INITIALIZE SYSTEM with a text. *)
Definition first_click : env :=
  with_text "A sudden collapse in the global lithium supply chain"
    (Demo.world (Some InitializeSystem) (Fails "unused")).

Definition explore_click : env := Demo.world (Some (ExploreThisPath 1)) (Fails "unused").

Definition chaos_click : env :=
  Demo.world (Some InjectChaos)
    (Returns (Demo.to_json (Demo.batch [Demo.sc_1; Demo.sc_2; Demo.sc_3]))).

Definition three : value := Demo.batch [Demo.sc_1; Demo.sc_2; Demo.sc_3].

End Sample.

(** * Properties *)

#[local] Arguments getitem : simpl never.
#[local] Arguments get_default : simpl never.
#[local] Arguments contains : simpl never.
#[local] Arguments has_field : simpl never.
#[local] Arguments field : simpl never.

(** ** Strings and lookups *)

Lemma append_cons (x : ascii) (a b : string) : String x a +:+ b = String x (a +:+ b).
Proof. reflexivity. Qed.

Lemma append_assoc (a b c : string) : (a +:+ b) +:+ c = a +:+ b +:+ c.
Proof.
  induction a as [|x a IH]; [reflexivity |].
  now rewrite !append_cons, IH.
Qed.

Lemma append_nil_r (a : string) : a +:+ EmptyString = a.
Proof.
  induction a as [|x a IH]; [reflexivity |].
  now rewrite append_cons, IH.
Qed.

Lemma prefix_append (n b : string) : String.prefix n (n +:+ b) = true.
Proof.
  induction n as [|x n IH]; [now destruct b |].
  rewrite append_cons. simpl.
  destruct (ascii_dec x x); [exact IH | congruence].
Qed.

Lemma is_substring_here (n s : string) : String.prefix n s = true -> is_substring n s = true.
Proof. intros H. destruct s; simpl in *; rewrite H; reflexivity. Qed.

Lemma is_substring_append (a n b : string) : is_substring n (a +:+ n +:+ b) = true.
Proof.
  induction a as [|x a IH].
  - change (EmptyString +:+ n +:+ b) with (n +:+ b).
    apply is_substring_here, prefix_append.
  - rewrite append_cons. simpl. rewrite IH. apply orb_true_r.
Qed.

Lemma has_field_dict (k : string) (d : dict) : has_field k (VDict d) = has_key k d.
Proof. unfold has_field, field_is, has_key, getitem. now destruct (dict_lookup k d). Qed.

Lemma has_field_getitem (k : string) (v : value) :
  has_field k v = true -> getitem v k = Ok (field k v).
Proof.
  unfold has_field, field_is, field. now destruct (getitem v k).
Qed.

Lemma has_field_is_dict (k : string) (v : value) : has_field k v = true -> is_dict v = true.
Proof. now destruct v. Qed.

Lemma field_is_has_field (p : value -> bool) (k : string) (v : value) :
  field_is p k v = true -> has_field k v = true.
Proof. unfold has_field, field_is. now destruct (getitem v k). Qed.

Lemma contains_dict (k : string) (v : value) :
  is_dict v = true -> contains k v = Ok (has_field k v).
Proof. destruct v; try discriminate. intros _. now rewrite has_field_dict. Qed.

Lemma getitem_dict_KeyError (k : string) (v : value) :
  is_dict v = true -> has_field k v = false -> getitem v k = Raise (KeyError k).
Proof.
  destruct v; try discriminate. intros _. rewrite has_field_dict.
  unfold has_key, getitem. now destruct (dict_lookup k d).
Qed.

(** ** Loops *)

Lemma for_enumerate_app {A St} (f : nat -> A -> St -> result St) (l1 l2 : list A) :
  forall i s,
    for_enumerate f i (l1 ++ l2) s =
    let? s' := for_enumerate f i l1 s in for_enumerate f (i + List.length l1) l2 s'.
Proof.
  induction l1 as [|x l1 IH]; intros i s; simpl.
  - now rewrite Nat.add_0_r.
  - destruct (f i x s) as [s'|e]; simpl; [|reflexivity].
    rewrite IH. now replace (S i + List.length l1)%nat with (i + S (List.length l1))%nat by lia.
Qed.

(** ** The report *)

Section Report.

Variable repr : value -> string.

Lemma report_step_described (i : nat) (step : value) (report : string) :
  report_ready step = true ->
  report_step repr i step report = Ok (report +:+ described_section repr i step).
Proof.
  unfold report_ready. intros H.
  apply andb_prop in H as [H Hrisk]. apply andb_prop in H as [Ht Hd].
  pose proof (has_field_is_dict _ _ Ht) as Hdict.
  unfold report_step, described_section.
  rewrite (has_field_getitem _ _ Ht), (has_field_getitem _ _ Hd). simpl.
  rewrite !(contains_dict _ _ Hdict). simpl.
  replace (Z.of_nat i + 1)%Z with (Z.of_nat (S i)) by lia.
  destruct (has_field "reasoning_trace" step) eqn:Htr;
    destruct (has_field "risk_level" step) eqn:Hr; simpl in Hrisk |- *;
    rewrite ?(has_field_getitem _ _ Htr), ?(has_field_getitem _ _ Hr),
      ?(has_field_getitem _ _ Hrisk); simpl;
    now rewrite ?append_assoc.
Qed.

Lemma report_loop_described (history : list value) :
  Forall (fun step => report_ready step = true) history ->
  forall i report,
    for_enumerate (report_step repr) i history report =
    Ok (report +:+ concat_strings (imap (fun j => described_section repr (i + j)) history)).
Proof.
  induction 1 as [|step history Hstep _ IH]; intros i report; simpl.
  - now rewrite append_nil_r.
  - rewrite (report_step_described _ _ _ Hstep). simpl.
    rewrite IH, append_assoc, Nat.add_0_r. do 4 f_equal.
    apply imap_ext. intros j x _. simpl. f_equal. lia.
Qed.

Lemma report_step_dict (i : nat) (step : value) (report : string) :
  is_dict step = true ->
  (exists r, report_step repr i step report = Ok r)
  \/ (exists k, report_step repr i step report = Raise (KeyError k)).
Proof.
  intros Hdict. unfold report_step.
  destruct (has_field "title" step) eqn:Ht;
    [rewrite (has_field_getitem _ _ Ht) | rewrite (getitem_dict_KeyError _ _ Hdict Ht); eauto].
  simpl.
  destruct (has_field "description" step) eqn:Hd;
    [rewrite (has_field_getitem _ _ Hd) | rewrite (getitem_dict_KeyError _ _ Hdict Hd); eauto].
  simpl. rewrite !(contains_dict _ _ Hdict). simpl.
  destruct (has_field "reasoning_trace" step) eqn:Htr; simpl;
    rewrite ?(has_field_getitem _ _ Htr); simpl;
    (destruct (has_field "risk_level" step) eqn:Hr; simpl; [|eauto]);
    rewrite (has_field_getitem _ _ Hr); simpl;
    (destruct (has_field "probability" step) eqn:Hp;
     [rewrite (has_field_getitem _ _ Hp) | rewrite (getitem_dict_KeyError _ _ Hdict Hp)]);
    simpl; eauto.
Qed.

Lemma report_loop_dicts (history : list value) :
  Forall (fun step => is_dict step = true) history ->
  forall i report,
    (exists r, for_enumerate (report_step repr) i history report = Ok r)
    \/ (exists k, for_enumerate (report_step repr) i history report = Raise (KeyError k)).
Proof.
  induction 1 as [|step history Hstep _ IH]; intros i report; simpl; [eauto |].
  destruct (report_step_dict i step report Hstep) as [[r ->]|[k ->]]; simpl; eauto.
Qed.

Lemma report_step_missing_probability (i : nat) (step : value) (report : string) :
  is_dict step = true ->
  has_field "risk_level" step = true ->
  has_field "probability" step = false ->
  (exists k, report_step repr i step report = Raise (KeyError k))
  /\ (has_field "title" step = true -> has_field "description" step = true ->
      report_step repr i step report = Raise (KeyError "probability")).
Proof.
  intros Hdict Hr Hp.
  assert (Hgen : has_field "title" step = true ->
                 has_field "description" step = true ->
                 report_step repr i step report = Raise (KeyError "probability")).
  { intros Ht Hd. unfold report_step.
    rewrite (has_field_getitem _ _ Ht), (has_field_getitem _ _ Hd). simpl.
    rewrite !(contains_dict _ _ Hdict), Hr. simpl.
    rewrite (has_field_getitem _ _ Hr), (getitem_dict_KeyError _ _ Hdict Hp).
    destruct (has_field "reasoning_trace" step) eqn:Htr; simpl;
      rewrite ?(has_field_getitem _ _ Htr); reflexivity. }
  split; [| exact Hgen].
  destruct (has_field "title" step) eqn:Ht.
  - destruct (has_field "description" step) eqn:Hd; [eauto |].
    exists "description". unfold report_step.
    rewrite (has_field_getitem _ _ Ht). simpl.
    now rewrite (getitem_dict_KeyError _ _ Hdict Hd).
  - exists "title". unfold report_step.
    now rewrite (getitem_dict_KeyError _ _ Hdict Ht).
Qed.

End Report.

(** ** The tree *)

Lemma node_stmts_app (b1 b2 : list stmt) (f : string) :
  node_stmts {| format := f; body := b1 ++ b2 |} =
  node_stmts {| format := f; body := b1 |} ++ node_stmts {| format := f; body := b2 |}.
Proof. unfold node_stmts. simpl. apply omap_app. Qed.

Lemma node_stmts_dot_node (dot : Digraph) (n : string) (a : attrs) :
  node_stmts (dot_node dot n a) = node_stmts dot ++ [(n, a)].
Proof. unfold node_stmts, dot_node. simpl. now rewrite omap_app. Qed.

Lemma node_stmts_dot_edge (dot : Digraph) (t h : string) (a : attrs) :
  node_stmts (dot_edge dot t h a) = node_stmts dot.
Proof. unfold node_stmts, dot_edge. simpl. rewrite omap_app. simpl. apply app_nil_r. Qed.

Lemma edge_stmts_dot_node (dot : Digraph) (n : string) (a : attrs) :
  edge_stmts (dot_node dot n a) = edge_stmts dot.
Proof. unfold edge_stmts, dot_node. simpl. rewrite omap_app. simpl. apply app_nil_r. Qed.

Lemma edge_stmts_dot_edge (dot : Digraph) (t h : string) (a : attrs) :
  edge_stmts (dot_edge dot t h a) = edge_stmts dot ++ [(quote_edge t, quote_edge h, a)].
Proof. unfold edge_stmts, dot_edge. simpl. now rewrite omap_app. Qed.

Lemma spine_id_pred (i : nat) :
  (0 < i)%nat -> "H_" +:+ pretty (Z.of_nat i - 1)%Z = spine_id (Nat.pred i).
Proof. intros H. unfold spine_id. do 2 f_equal. lia. Qed.

Lemma partition_no_colon (s : string) :
  has_colon s = false -> partition s = (s, EmptyString).
Proof.
  induction s as [|c s IH]; [reflexivity |]. simpl.
  destruct (Ascii.eqb c ":"); [discriminate |]. simpl. intros H. now rewrite (IH H).
Qed.

Lemma quote_edge_plain (s : string) : has_colon s = false -> quote_edge s = plain s.
Proof. intros H. unfold quote_edge. now rewrite (partition_no_colon s H). Qed.

Lemma has_colon_append (a b : string) :
  has_colon (a +:+ b) = has_colon a || has_colon b.
Proof.
  induction a as [|c a IH]; [reflexivity |].
  rewrite append_cons. simpl. now rewrite IH, orb_assoc.
Qed.

Lemma has_colon_pretty_N_go (x : N) :
  forall s, has_colon s = false -> has_colon (pretty_N_go x s) = false.
Proof.
  induction (N.lt_wf_0 x) as [x _ IH]. intros s Hs.
  assert (x = 0 \/ 0 < x)%N as [-> | Hx] by lia; [now rewrite pretty_N_go_0 |].
  rewrite pretty_N_go_step by exact Hx.
  apply IH; [now apply N.div_lt |].
  simpl. rewrite Hs, orb_false_r.
  unfold pretty_N_char. now repeat case_match.
Qed.

Lemma has_colon_pretty_Z (z : Z) : has_colon (pretty z) = false.
Proof.
  assert (HN : forall n : N, has_colon (pretty n) = false).
  { intros n. unfold pretty, pretty_N. case_decide; [reflexivity |].
    now apply has_colon_pretty_N_go. }
  destruct z as [|p|p]; [reflexivity | apply (HN (Npos p)) |].
  unfold pretty, pretty_Z. rewrite has_colon_append. simpl. apply (HN (Npos p)).
Qed.

Lemma quote_edge_spine (z : Z) : quote_edge ("H_" +:+ pretty z) = plain ("H_" +:+ pretty z).
Proof.
  apply quote_edge_plain. rewrite has_colon_append. simpl. apply has_colon_pretty_Z.
Qed.


Section Tree.

Variable repr : value -> string.

Lemma spine_step_described (i : nat) (step : value) (dot : Digraph) :
  has_field "title" step = true ->
  exists dot',
    spine_step repr i step dot = Ok dot'
    /\ node_stmts dot' = node_stmts dot ++ [described_spine_node repr i step]
    /\ edge_stmts dot' =
       edge_stmts dot ++ (if (0 <? i)%nat then [spine_edge (Nat.pred i)] else []).
Proof.
  intros Ht. unfold spine_step. rewrite (has_field_getitem _ _ Ht). simpl.
  destruct (0 <? i)%nat eqn:Hi; eexists; split; try reflexivity.
  - apply Nat.ltb_lt in Hi.
    rewrite node_stmts_dot_edge, node_stmts_dot_node, edge_stmts_dot_edge,
      edge_stmts_dot_node, (spine_id_pred i Hi).
    unfold spine_edge, spine_id. rewrite !quote_edge_spine.
    now replace (S (Nat.pred i)) with i by lia.
  - rewrite node_stmts_dot_node, edge_stmts_dot_node, app_nil_r. split; reflexivity.
Qed.

Lemma spine_loop_from (history : list value) :
  Forall (fun step => has_field "title" step = true) history ->
  forall i dot, (0 < i)%nat ->
    exists dot',
      for_enumerate (spine_step repr) i history dot = Ok dot'
      /\ node_stmts dot' =
         node_stmts dot ++ imap (fun j => described_spine_node repr (i + j)) history
      /\ edge_stmts dot' =
         edge_stmts dot ++ map spine_edge (seq (Nat.pred i) (List.length history)).
Proof.
  induction 1 as [|step history Hstep _ IH]; intros i dot Hi; simpl.
  - exists dot. now rewrite !app_nil_r.
  - destruct i as [|i]; [lia |].
    destruct (spine_step_described (S i) step dot Hstep) as (dot1 & -> & Hn1 & He1). simpl.
    destruct (IH (S (S i)) dot1 ltac:(lia)) as (dot2 & -> & Hn2 & He2).
    exists dot2. split; [reflexivity |]. rewrite Hn2, He2, Hn1, He1.
    rewrite <- !app_assoc, Nat.add_0_r. simpl.
    split; [| reflexivity]. do 2 f_equal.
    apply imap_ext. intros j x _. simpl. f_equal. lia.
Qed.

Lemma spine_loop_described (history : list value) (dot : Digraph) :
  Forall (fun step => has_field "title" step = true) history ->
  exists dot',
    for_enumerate (spine_step repr) 0 history dot = Ok dot'
    /\ node_stmts dot' = node_stmts dot ++ imap (described_spine_node repr) history
    /\ edge_stmts dot' =
       edge_stmts dot ++ described_spine_edges (List.length history).
Proof.
  intros H. destruct H as [|step history Hstep H]; simpl.
  - exists dot. now rewrite !app_nil_r.
  - destruct (spine_step_described 0 step dot Hstep) as (dot1 & -> & Hn1 & He1). simpl.
    destruct (spine_loop_from history H 1 dot1 ltac:(lia)) as (dot2 & -> & Hn2 & He2).
    exists dot2. split; [reflexivity |]. rewrite Hn2, He2, Hn1, He1. simpl.
    rewrite <- !app_assoc. simpl. split; reflexivity.
Qed.

Lemma leaf_step_described (source : string) (i : nat) (opt : value) (dot : Digraph) :
  leaf_ready opt = true ->
  exists dot',
    leaf_step repr source i opt dot = Ok dot'
    /\ node_stmts dot' = node_stmts dot ++ [described_leaf_node repr opt]
    /\ edge_stmts dot' = edge_stmts dot ++ [drawn_leaf_edge repr source opt].
Proof.
  unfold leaf_ready. intros H.
  apply andb_prop in H as [H Hp]. apply andb_prop in H as [H Hh].
  apply andb_prop in H as [H Ht]. apply andb_prop in H as [Hi Hr].
  pose proof (field_is_has_field _ _ _ Hr) as Hr'.
  assert (Hget : get_default opt "risk_level" (VStr EmptyString)
                 = Ok (field "risk_level" opt)).
  { pose proof (has_field_getitem _ _ Hr') as G. destruct opt; try discriminate.
    unfold get_default, getitem in *. now destruct (dict_lookup "risk_level" d). }
  assert (Hstr : exists r, field "risk_level" opt = VStr r).
  { unfold field_is, field in *. destruct (getitem opt "risk_level") as [x|]; [|discriminate].
    destruct x; try discriminate. eauto. }
  destruct Hstr as [r Hstr].
  unfold leaf_step.
  rewrite (has_field_getitem _ _ Hi). simpl. rewrite Hget. simpl.
  rewrite Hstr. simpl.
  rewrite (has_field_getitem _ _ Ht), (has_field_getitem _ _ Hh),
    (has_field_getitem _ _ Hp). simpl.
  rewrite (has_field_getitem _ _ Hr'). simpl.
  eexists. split; [reflexivity |].
  rewrite node_stmts_dot_edge, node_stmts_dot_node, edge_stmts_dot_edge, edge_stmts_dot_node.
  unfold described_leaf_node, drawn_leaf_edge, leaf_id, described_color.
  rewrite Hstr. split; reflexivity.
Qed.

Lemma leaf_loop_described (source : string) (opts : list value) :
  Forall (fun opt => leaf_ready opt = true) opts ->
  forall i dot,
    exists dot',
      for_enumerate (leaf_step repr source) i opts dot = Ok dot'
      /\ node_stmts dot' = node_stmts dot ++ map (described_leaf_node repr) opts
      /\ edge_stmts dot' = edge_stmts dot ++ map (drawn_leaf_edge repr source) opts.
Proof.
  induction 1 as [|opt opts Hopt _ IH]; intros i dot; simpl.
  - exists dot. now rewrite !app_nil_r.
  - destruct (leaf_step_described source i opt dot Hopt) as (dot1 & -> & Hn1 & He1). simpl.
    destruct (IH (S i) dot1) as (dot2 & -> & Hn2 & He2).
    exists dot2. split; [reflexivity |]. rewrite Hn2, He2, Hn1, He1.
    now rewrite <- !app_assoc.
Qed.

Lemma getitem_truthy (v x : value) (k : string) : getitem v k = Ok x -> truthy v = true.
Proof.
  destruct v; try discriminate. unfold getitem. now destruct d.
Qed.

(** The tree for any history that has titles: the spine, then the leaves
    and the edges asked for from [H_{len(history)-1}] to each leaf's name. *)
Lemma draw_advanced_tree_described (history : list value) (options : value) :
  Forall (fun step => has_field "title" step = true) history ->
  (truthy options = false ->
   exists g,
     draw_advanced_tree repr history options = Ok g
     /\ node_stmts g = imap (described_spine_node repr) history
     /\ edge_stmts g = described_spine_edges (List.length history))
  /\ (forall scs,
        getitem options "scenarios" = Ok (VList scs) ->
        Forall (fun opt => leaf_ready opt = true) scs ->
        exists g,
          draw_advanced_tree repr history options = Ok g
          /\ node_stmts g =
             imap (described_spine_node repr) history ++ map (described_leaf_node repr) scs
          /\ edge_stmts g =
             described_spine_edges (List.length history)
             ++ map (drawn_leaf_edge repr
                       ("H_" +:+ pretty (Z.of_nat (List.length history) - 1)%Z)) scs).
Proof.
  intros Hh.
  destruct (spine_loop_described history new_graph Hh) as (dot1 & Hrun & Hn1 & He1).
  change (node_stmts new_graph) with (@nil (string * attrs)) in Hn1.
  change (edge_stmts new_graph) with (@nil (endpoint * endpoint * attrs)) in He1.
  simpl in Hn1, He1. split.
  - intros Hf. exists dot1. unfold draw_advanced_tree. rewrite Hrun. simpl.
    now rewrite Hf.
  - intros scs Hs Hl. unfold draw_advanced_tree. rewrite Hrun. simpl.
    rewrite (getitem_truthy _ _ _ Hs).
    assert (Hget : get_default options "scenarios" (VList []) = Ok (VList scs)).
    { destruct options; try discriminate. unfold get_default, getitem in *.
      now destruct (dict_lookup "scenarios" d). }
    rewrite Hget. simpl.
    destruct (leaf_loop_described
                ("H_" +:+ pretty (Z.of_nat (List.length history) - 1)%Z) scs Hl 0 dot1)
      as (dot2 & -> & Hn2 & He2).
    exists dot2. now rewrite Hn2, He2, Hn1, He1.
Qed.

End Tree.

Lemma map_fmap {A B} (f : A -> B) (l : list A) : map f l = f <$> l.
Proof. reflexivity. Qed.



Lemma leaf_id_not_spine (repr : value -> string) (opt : value) (z : Z) :
  leaf_id repr opt <> "H_" +:+ pretty z.
Proof. unfold leaf_id. rewrite !append_cons. discriminate. Qed.

Section TreeClaims.

Variable repr : value -> string.

Lemma drawn_leaf_edges_described (source : string) (scs : list value) :
  has_colon source = false ->
  Forall (fun opt => has_colon (leaf_id repr opt) = false) scs ->
  map (drawn_leaf_edge repr source) scs = map (described_leaf_edge repr source) scs.
Proof.
  intros Hs. induction 1 as [|opt scs Hopt _ IH]; [reflexivity |].
  simpl. rewrite IH. f_equal. unfold drawn_leaf_edge, described_leaf_edge.
  now rewrite (quote_edge_plain _ Hs), (quote_edge_plain _ Hopt).
Qed.




(** C10: with an empty history and a simulation whose scenarios can be
    drawn, the tree is built without an exception; it has one edge per
    scenario, each leaving the node id [H_-1] (for the leaf of the scenario
    when no scenario identifier holds a colon), and no node of the graph
    has that id: the only nodes are the scenario leaves. *)
Theorem draw_advanced_tree_phantom_root (options : value) (scs : list value) :
  scs <> [] ->
  getitem options "scenarios" = Ok (VList scs) ->
  Forall (fun opt => leaf_ready opt = true) scs ->
  exists g,
    draw_advanced_tree repr [] options = Ok g
    /\ edge_stmts g =
       map (fun opt =>
              (plain "H_-1", quote_edge (leaf_id repr opt),
               [("label", "Risk: " +:+ fmt repr (field "risk_level" opt))])) scs
    /\ (Forall (fun opt => has_colon (leaf_id repr opt) = false) scs ->
        edge_stmts g = map (described_leaf_edge repr "H_-1") scs)
    /\ List.length (edge_stmts g) = List.length scs
    /\ Forall (fun e => fst (fst e) = plain "H_-1") (edge_stmts g)
    /\ node_stmts g = map (described_leaf_node repr) scs
    /\ Forall (fun n => fst n <> "H_-1") (node_stmts g).
Proof.
  intros _ Hs Hl.
  destruct (draw_advanced_tree_described repr [] options ltac:(constructor)) as [_ Hsome].
  destruct (Hsome scs Hs Hl) as (g & Hg & Hn & He). simpl in Hn, He.
  change ("H_" +:+ pretty (Z.of_nat 0 - 1)%Z) with "H_-1" in He.
  exists g. split; [exact Hg |].
  split; [rewrite He; apply map_ext; intros opt; reflexivity |].
  split; [intros Hcolon; rewrite He; now apply drawn_leaf_edges_described |].
  split; [rewrite He; apply length_map |].
  split; [rewrite He, map_fmap, Forall_fmap; apply Forall_true; intros opt; reflexivity |].
  split; [exact Hn |].
  rewrite Hn, map_fmap, Forall_fmap. apply Forall_true. intros opt.
  apply (leaf_id_not_spine repr opt (-1)).
Qed.

End TreeClaims.

Section ReportClaims.

Variable repr : value -> string.

(** C6: for every history whose entries can be printed (title and
    description, and a probability wherever there is a risk level), the
    report is the heading, the date line, then one section per entry in
    order: title, description, the reasoning trace if the entry has one,
    the risk and probability line if the entry has a risk level.  Two
    exports of the same history differ in the date line only. *)
Theorem generate_markdown_report_described (now : string) (history : list value) :
  Forall (fun step => report_ready step = true) history ->
  generate_markdown_report repr now history = Ok (described_report repr now history)
  /\ forall now',
       exists body,
         generate_markdown_report repr now history =
           Ok ("# TIMEFOLD STRATEGIC REPORT" +:+ nl +:+ "**Date:** " +:+ now +:+ nl +:+ nl
               +:+ body)
         /\ generate_markdown_report repr now' history =
           Ok ("# TIMEFOLD STRATEGIC REPORT" +:+ nl +:+ "**Date:** " +:+ now' +:+ nl +:+ nl
               +:+ body).
Proof.
  intros Hh.
  assert (H : forall t, generate_markdown_report repr t history
                        = Ok (described_report repr t history)).
  { intros t. unfold generate_markdown_report, described_report.
    rewrite (report_loop_described repr history Hh). simpl.
    now rewrite !append_assoc. }
  split; [apply H |].
  intros now'. exists (concat_strings (imap (described_section repr) history)).
  rewrite !H. split; reflexivity.
Qed.

(** C8: when a history entry has the key 'risk_level' but not the key
    'probability', generate_markdown_report returns no document: it raises.
    When the entries before it are dicts, as every entry the script appends
    is, the exception is a KeyError; when they can be printed and the entry
    has its title and description, the missing key is 'probability'. *)
Theorem generate_markdown_report_missing_probability
    (now : string) (pre post : list value) (d : dict) :
  has_key "risk_level" d = true ->
  has_key "probability" d = false ->
  (exists ex, generate_markdown_report repr now (pre ++ VDict d :: post) = Raise ex)
  /\ (Forall (fun step => is_dict step = true) pre ->
      exists k,
        generate_markdown_report repr now (pre ++ VDict d :: post) = Raise (KeyError k))
  /\ (Forall (fun step => report_ready step = true) pre ->
      has_key "title" d = true -> has_key "description" d = true ->
      generate_markdown_report repr now (pre ++ VDict d :: post)
      = Raise (KeyError "probability")).
Proof.
  rewrite <- !has_field_dict. intros Hr Hp.
  unfold generate_markdown_report. rewrite for_enumerate_app.
  assert (Hstep : forall r,
    exists k,
      rbind (Ok r) (fun s' =>
        for_enumerate (report_step repr) (0 + List.length pre) (VDict d :: post) s')
      = Raise (KeyError k)).
  { intros r. simpl.
    destruct (report_step_missing_probability repr (List.length pre) (VDict d) r
                eq_refl Hr Hp) as [[k ->] _].
    simpl. eauto. }
  split; [| split].
  - destruct (for_enumerate (report_step repr) 0 pre _) as [r|ex].
    + destruct (Hstep r) as [k ->]. eauto.
    + simpl. eauto.
  - intros Hpre.
    destruct (report_loop_dicts repr pre Hpre 0
               ("# TIMEFOLD STRATEGIC REPORT" +:+ nl +:+ "**Date:** " +:+ now +:+ nl +:+ nl))
      as [[r Hrun]|[k Hrun]]; rewrite append_assoc, Hrun.
    + apply Hstep.
    + simpl. eauto.
  - intros Hready Ht Hd.
    rewrite (report_loop_described repr pre Hready). simpl.
    match goal with
    | |- context [report_step repr ?n (VDict d) ?r] =>
        destruct (report_step_missing_probability repr n (VDict d) r eq_refl Hr Hp)
          as [_ Hk]
    end.
    now rewrite (Hk Ht Hd).
Qed.

End ReportClaims.

(** ** The script monad *)

Lemma bind_ret {A B} (a : A) (k : A -> M B) (s : session) : bind (ret a) k s = k a s.
Proof. unfold bind, ret. now destruct (k a s) as [[r s2] ev2]. Qed.

Lemma bind_lift_Ok {A B} (a : A) (k : A -> M B) (s : session) :
  bind (lift (Ok a)) k s = k a s.
Proof. apply bind_ret. Qed.

Lemma bind_lift_Raise {A B} (e : exn) (k : A -> M B) (s : session) :
  bind (lift (Raise e)) k s = (Exc e, s, []).
Proof. reflexivity. Qed.


Lemma bind_rerun {A B} (k : A -> M B) (s : session) : bind st_rerun k s = (RerunSig, s, []).
Proof. reflexivity. Qed.

Lemma bind_read {B} (k : session -> M B) (s : session) : bind read k s = k s s.
Proof. unfold bind, read. now destruct (k s s) as [[r s2] ev2]. Qed.

Lemma bind_update {B} (f : session -> session) (k : unit -> M B) (s : session) :
  bind (update f) k s = k tt (f s).
Proof. unfold bind, update. now destruct (k tt (f s)) as [[r s2] ev2]. Qed.

Lemma bind_emit {B} (ev : event) (k : unit -> M B) (s : session) :
  bind (emit ev) k s = (fst (fst (k tt s)), snd (fst (k tt s)), ev :: snd (k tt s)).
Proof. unfold bind, emit. now destruct (k tt s) as [[r s2] ev2]. Qed.

Lemma bind_liftIO_Ok {A B} (a : A) (evs : list event) (k : A -> M B) (s : session) :
  bind (liftIO (Ok a, evs)) k s
  = (fst (fst (k a s)), snd (fst (k a s)), evs ++ snd (k a s)).
Proof. unfold bind, liftIO. now destruct (k a s) as [[r s2] ev2]. Qed.

Lemma bind_liftIO_Raise {A B} (e : exn) (evs : list event) (k : A -> M B) (s : session) :
  bind (liftIO (Raise e, evs)) k s = (Exc e, s, evs).
Proof. reflexivity. Qed.

Lemma bind_assoc {A B C} (m : M A) (k1 : A -> M B) (k2 : B -> M C) (s : session) :
  bind (bind m k1) k2 s = bind m (fun a => bind (k1 a) k2) s.
Proof.
  unfold bind. destruct (m s) as [[[a| | |] s1] ev1]; try reflexivity.
  destruct (k1 a s1) as [[[b| | |] s2] ev2]; try reflexivity.
  destruct (k2 b s2) as [[r s3] ev3]. now rewrite app_assoc.
Qed.

Lemma bind_Val {A B} (m : M A) (k : A -> M B) (s s1 : session) (a : A) :
  m s = (Val a, s1, []) -> bind m k s = k a s1.
Proof. intros H. unfold bind. rewrite H. now destruct (k a s1) as [[r s2] ev2]. Qed.

Lemma bind_Val_log {A B} (m : M A) (k : A -> M B) (s s1 : session) (a : A)
    (ev : list event) :
  m s = (Val a, s1, ev) ->
  bind m k s = (fst (fst (k a s1)), snd (fst (k a s1)), ev ++ snd (k a s1)).
Proof. intros H. unfold bind. rewrite H. now destruct (k a s1) as [[r s2] ev2]. Qed.

Lemma bind_Exc {A B} (m : M A) (k : A -> M B) (s s1 : session) (e : exn)
    (evs : list event) :
  m s = (Exc e, s1, evs) -> bind m k s = (Exc e, s1, evs).
Proof. intros H. unfold bind. now rewrite H. Qed.

Lemma bind_when_false {B} (m : M unit) (k : unit -> M B) (s : session) :
  bind (when false m) k s = k tt s.
Proof. apply bind_ret. Qed.

Lemma bind_when_true {B} (m : M unit) (k : unit -> M B) (s : session) :
  bind (when true m) k s = bind m k s.
Proof. reflexivity. Qed.

Lemma button_clicked (e : env) (w w' : widget) :
  clicked e = Some w -> button e w' = bool_decide (w = w').
Proof.
  intros H. unfold button. rewrite H.
  apply bool_decide_ext. split; congruence.
Qed.

(** What a computation leaves in the session state. *)
Lemma last_context_value (s : session) (entry c : value) :
  last (history s) = Some entry ->
  getitem entry "description" = Ok c ->
  last_context s = (Val c, s, []).
Proof.
  intros Hl Hd. unfold last_context.
  rewrite bind_read. unfold last_item. rewrite Hl, bind_lift_Ok, Hd. reflexivity.
Qed.

Section InputStage.

Variable repr : value -> string.
Variable json_loads : string -> reply value.

(** C9: at the INPUT stage, INITIALIZE SYSTEM with empty text and an
    attached image appends the entry with title START and the description
    'Analyze the uploaded visual data.' to the history, sets the stage to
    RECRUITING and reruns; council and simulation are untouched. *)
Theorem initialize_with_image_only (e : env) (s : session) (img : image) :
  api_key_missing e = false ->
  stage s = INPUT ->
  clicked e = Some InitializeSystem ->
  user_input e = EmptyString ->
  uploaded_file e = Some img ->
  script repr json_loads e s =
  (RerunSig,
   {| stage := RECRUITING;
      history := history s ++ [VDict [("title", VStr "START");
                                      ("description",
                                       VStr "Analyze the uploaded visual data.")]];
      agents := agents s;
      simulation := simulation s |},
   []).
Proof.
  intros Hkey Hstage Hclick Htext Himg.
  unfold script. rewrite Hkey, Himg.
  rewrite (button_clicked e _ ResetSystem Hclick). simpl bool_decide.
  rewrite bind_when_false, bind_read, Hstage.
  unfold input_stage.
  rewrite (button_clicked e _ CryptoCrash Hclick), (button_clicked e _ Pandemic Hclick),
    (button_clicked e _ AIBan Hclick), (button_clicked e _ InitializeSystem Hclick), Htext.
  reflexivity.
Qed.

End InputStage.

(** ** The RECRUITING stage *)

Lemma prefix_app_l (n x b : string) :
  String.prefix n x = true -> String.prefix n (x +:+ b) = true.
Proof.
  revert x. induction n as [|c n IH]; intros x H.
  - now destruct (x +:+ b).
  - destruct x as [|c' x]; [discriminate |]. rewrite append_cons. simpl in *.
    destruct (ascii_dec c c'); [now apply IH | discriminate].
Qed.

Lemma is_substring_cons (n : string) (c : ascii) (x : string) :
  is_substring n (String c x) = String.prefix n (String c x) || is_substring n x.
Proof. reflexivity. Qed.

Lemma is_substring_app_l (n x b : string) :
  is_substring n x = true -> is_substring n (x +:+ b) = true.
Proof.
  induction x as [|c x IH]; intros H.
  - simpl in H. rewrite orb_false_r in H. apply is_substring_here.
    now apply prefix_app_l.
  - rewrite append_cons, is_substring_cons. rewrite is_substring_cons in H.
    apply orb_true_iff in H as [H|H].
    + apply (prefix_app_l _ _ b) in H. rewrite append_cons in H.
      now rewrite H.
    + rewrite (IH H). apply orb_true_r.
Qed.

Lemma is_substring_app_r (n a x : string) :
  is_substring n x = true -> is_substring n (a +:+ x) = true.
Proof.
  intros H. induction a as [|c a IH]; [exact H |].
  rewrite append_cons, is_substring_cons, IH. apply orb_true_r.
Qed.


Lemma AgentProfile_card_ready (agent : value) :
  AgentProfile_ok agent = true -> card_ready agent = true.
Proof.
  unfold AgentProfile_ok, card_ready. intros H.
  repeat (apply andb_prop in H as [H ?]).
  repeat (apply andb_true_intro; split); eapply field_is_has_field; eassumption.
Qed.



Section RecruitingStage.

Variable repr : value -> string.
Variable json_loads : string -> reply value.

(** C7: for every context, the request of recruit_agents starts with the
    prompt that asks for 3 distinct experts, carries the rule 'No
    honorifics.' and asks for 'Diverse perspectives.'; the fixed text
    around the context mentions honorifics only in that rule; with an image
    attached, the image and the instruction 'Analyze visual data.' follow
    the prompt in the inputs. *)
Theorem recruit_agents_request (e : env) (context : value) (image_part : option image) :
  let before := "MISSION: Recruit 3 distinct strategic experts to analyze: " in
  let after := ". RULES: No honorifics. Diverse perspectives." in
  let prompt := before +:+ fmt repr context +:+ after in
  snd (recruit_agents repr json_loads e context image_part) =
    [GenerateContent recruit_model
       match image_part with
       | Some img => [PText prompt; PImage img; PText "Analyze visual data."]
       | None => [PText prompt]
       end]
  /\ response_schema recruit_model = Council
  /\ is_substring "Recruit 3 distinct strategic experts" prompt = true
  /\ is_substring "No honorifics." prompt = true
  /\ is_substring "Diverse perspectives." prompt = true
  /\ occurrences "onorific" before = 0%nat
  /\ occurrences "onorific" after = 1%nat.
Proof.
  intros before after prompt.
  split.
  { unfold recruit_agents, recruit_inputs, recruit_prompt. fold before after prompt.
    destruct (generate_content e recruit_model _) as [text|msg];
      [destruct (json_loads text) |]; destruct image_part; reflexivity. }
  split; [reflexivity |].
  split; [apply is_substring_app_l; reflexivity |].
  split; [apply is_substring_app_r, is_substring_app_r; reflexivity |].
  split; [apply is_substring_app_r, is_substring_app_r; reflexivity |].
  split; reflexivity.
Qed.

Lemma recruit_agents_Ok (e : env) (context council : value) (image_part : option image) :
  fst (recruit_agents repr json_loads e context image_part) = Ok council ->
  recruit_agents repr json_loads e context image_part
  = (Ok council, [GenerateContent recruit_model (recruit_inputs repr context image_part)]).
Proof.
  unfold recruit_agents.
  destruct (generate_content e recruit_model _) as [text|msg]; [| discriminate].
  destruct (json_loads text); [| discriminate]. simpl. congruence.
Qed.


End RecruitingStage.

(** ** The SIMULATING stage *)

Lemma keeps_ret {A} (a : A) : keeps_state (ret a).
Proof. intros s. reflexivity. Qed.

Lemma keeps_read : keeps_state read.
Proof. intros s. reflexivity. Qed.

Lemma keeps_emit (ev : event) : keeps_state (emit ev).
Proof. intros s. reflexivity. Qed.

Lemma keeps_raise {A} (e : exn) : keeps_state (@raise A e).
Proof. intros s. reflexivity. Qed.

Lemma keeps_lift {A} (r : result A) : keeps_state (lift r).
Proof. intros s. now destruct r. Qed.

Lemma keeps_bind {A B} (m : M A) (k : A -> M B) :
  keeps_state m -> (forall a, keeps_state (k a)) -> keeps_state (bind m k).
Proof.
  intros Hm Hk s. unfold bind. specialize (Hm s).
  destruct (m s) as [[[a| | |] s1] ev1]; simpl in *; try assumption.
  specialize (Hk a s1). destruct (k a s1) as [[r s2] ev2]. simpl in *. congruence.
Qed.

Lemma keeps_when (b : bool) (m : M unit) : keeps_state m -> keeps_state (when b m).
Proof. intros H. destruct b; [exact H | apply keeps_ret]. Qed.

Lemma keeps_for_each {A} (f : nat -> A -> M unit) (l : list A) :
  (forall i x, keeps_state (f i x)) -> forall i, keeps_state (for_each f i l).
Proof.
  intros Hf. induction l as [|x l IH]; intros i; simpl.
  - apply keeps_ret.
  - apply keeps_bind; [apply Hf | intros _; apply IH].
Qed.

Create HintDb keeps.
#[local] Hint Resolve keeps_ret keeps_read keeps_emit keeps_raise keeps_lift : keeps.

Ltac keeps :=
  repeat first
    [ apply keeps_bind; [| intros ?]
    | apply keeps_when
    | solve [auto with keeps] ].

Lemma ScenarioNode_fields (sc : value) :
  ScenarioNode_ok sc = true ->
  (exists r, field "risk_level" sc = VStr r)
  /\ Forall (fun k => has_field k sc = true)
       ["id"; "title"; "description"; "probability"; "time_horizon"; "risk_level";
        "impact_score"; "data_confidence"; "assumption_stability"; "reasoning_trace"].
Proof.
  unfold ScenarioNode_ok. intros H.
  repeat (apply andb_prop in H as [H ?]).
  split.
  - unfold field_is, field in *. destruct (getitem sc "risk_level") as [x|]; [| discriminate].
    destruct x; try discriminate. eauto.
  - repeat constructor; eapply field_is_has_field; eassumption.
Qed.

Lemma ScenarioNode_leaf_ready (sc : value) :
  ScenarioNode_ok sc = true -> leaf_ready sc = true.
Proof.
  intros H. pose proof (ScenarioNode_fields sc H) as [_ Hf].
  unfold ScenarioNode_ok in H. repeat (apply andb_prop in H as [H ?]).
  repeat match goal with
         | Hf : Forall _ (_ :: _) |- _ => inversion_clear Hf
         end.
  unfold leaf_ready. repeat (apply andb_true_intro; split); assumption.
Qed.


Section SimulatingStage.

Variable repr : value -> string.
Variable json_loads : string -> reply value.

Lemma scenario_card_keeps (e : env) (i : nat) (sc : value) :
  button e (ExploreThisPath i) = false -> keeps_state (scenario_card e i sc).
Proof.
  intros Hb. unfold scenario_card. rewrite Hb.
  change (when false ?m) with (ret tt).
  keeps. destruct a0; keeps.
Qed.

Lemma simulating_view_keeps (e : env) (inject_chaos : bool) :
  (forall i, button e (ExploreThisPath i) = false) ->
  keeps_state (simulating_view repr e inject_chaos).
Proof.
  intros Hb. unfold simulating_view. keeps.
  apply keeps_for_each. intros i x. now apply scenario_card_keeps.
Qed.

Lemma scenario_card_result (e : env) (i : nat) (sc : value) (s : session) :
  ScenarioNode_ok sc = true ->
  scenario_card e i sc s =
  if button e (ExploreThisPath i)
  then (RerunSig, explored sc s, [StWrite (field "description" sc)])
  else (Val tt, s, [StWrite (field "description" sc)]).
Proof.
  intros Hok. destruct (ScenarioNode_fields sc Hok) as [[r Hr] Hf].
  repeat match goal with
         | Hf : Forall _ (_ :: _) |- _ => inversion Hf; clear Hf; subst
         end.
  unfold scenario_card.
  repeat match goal with
         | H : has_field ?k sc = true |- _ => rewrite (has_field_getitem k sc H); clear H
         end.
  rewrite Hr, !bind_lift_Ok.
  change (contains "Critical" (VStr r)) with (Ok (is_substring "Critical" r)).
  rewrite bind_lift_Ok.
  assert (Hcol : forall (k : unit -> M unit) s0,
    bind (if is_substring "Critical" r
          then ret tt
          else (do risk <- lift (Ok (VStr r)); do _ <- lift (contains "High" risk); ret tt))
         k s0 = k tt s0).
  { intros k s0. destruct (is_substring "Critical" r); [apply bind_ret |].
    rewrite bind_assoc, bind_lift_Ok.
    change (contains "High" (VStr r)) with (Ok (is_substring "High" r)).
    rewrite bind_assoc, bind_lift_Ok. cbv beta. apply bind_ret. }
  rewrite Hcol, !bind_lift_Ok, bind_emit.
  assert (Hshow : forall (k : unit -> M unit) s0,
    bind (when (show_reasoning e)
            (do _ <- lift (Ok (field "reasoning_trace" sc));
             do _ <- lift (Ok (field "data_confidence" sc));
             do _ <- lift (Ok (field "assumption_stability" sc)); ret tt)) k s0 = k tt s0).
  { intros k s0. destruct (show_reasoning e); [| apply bind_ret].
    rewrite bind_when_true.
    repeat (rewrite bind_assoc, bind_lift_Ok; cbv beta). apply bind_ret. }
  rewrite Hshow.
  destruct (button e (ExploreThisPath i)); reflexivity.
Qed.

Lemma scenario_cards_explore (e : env) (sc : value) (post : list value) (s : session) :
  ScenarioNode_ok sc = true ->
  forall pre i,
    Forall (fun x => ScenarioNode_ok x = true) pre ->
    clicked e = Some (ExploreThisPath (i + List.length pre)) ->
    exists evs,
      for_each (scenario_card e) i (pre ++ sc :: post) s = (RerunSig, explored sc s, evs).
Proof.
  intros Hsc. induction pre as [|x pre IH]; intros i Hpre Hclick; simpl.
  - unfold bind. rewrite (scenario_card_result e i sc s Hsc).
    rewrite (button_clicked e _ _ Hclick), bool_decide_eq_true_2; [eauto |].
    simpl. f_equal. lia.
  - inversion_clear Hpre as [|? ? Hx Hrest].
    assert (Hb : button e (ExploreThisPath i) = false).
    { rewrite (button_clicked e _ _ Hclick). apply bool_decide_eq_false_2.
      simpl. intros [=]. lia. }
    assert (Hcard : scenario_card e i x s
                    = (Val tt, s, [StWrite (field "description" x)])).
    { now rewrite (scenario_card_result e i x s Hx), Hb. }
    rewrite (bind_Val_log _ _ _ _ _ _ Hcard).
    destruct (IH (S i) Hrest) as [evs ->]; [| simpl; eauto].
    rewrite Hclick. do 2 f_equal. simpl. lia.
Qed.

Lemma script_simulating (e : env) (s : session) :
  api_key_missing e = false ->
  clicked e <> Some ResetSystem ->
  stage s = SIMULATING ->
  script repr json_loads e s = simulating_stage repr json_loads e (uploaded_file e) s.
Proof.
  intros Hkey Hreset Hstage. unfold script. rewrite Hkey.
  assert (Hb : button e ResetSystem = false).
  { unfold button. now apply bool_decide_eq_false_2. }
  now rewrite Hb, bind_when_false, bind_read, Hstage.
Qed.

Lemma simulating_stage_keep (e : env) (img : option image) (s : session) (c : value) :
  last_context s = (Val c, s, []) ->
  button e InjectChaos = false ->
  truthy (simulation s) = true ->
  simulating_stage repr json_loads e img s = simulating_view repr e false s.
Proof.
  intros Hc Hb Ht. unfold simulating_stage.
  rewrite (bind_Val _ _ _ _ _ Hc), Hb, bind_when_false, bind_read, Ht.
  simpl negb. now rewrite bind_when_false.
Qed.

Lemma simulating_stage_call (e : env) (img : option image) (s : session)
    (c r : value) (evs : list event) :
  last_context s = (Val c, s, []) ->
  button e InjectChaos = true \/ truthy (simulation s) = false ->
  run_simulation repr json_loads e c (agents s) img (button e InjectChaos) = (Ok r, evs) ->
  simulating_stage repr json_loads e img s =
  (fst (fst (simulating_view repr e (button e InjectChaos) (set_simulation r s))),
   snd (fst (simulating_view repr e (button e InjectChaos) (set_simulation r s))),
   evs ++ snd (simulating_view repr e (button e InjectChaos) (set_simulation r s))).
Proof.
  intros Hc Hcall Hrun. unfold simulating_stage.
  rewrite (bind_Val _ _ _ _ _ Hc).
  destruct (button e InjectChaos) eqn:Hb.
  - rewrite bind_when_true, bind_update, bind_read. simpl truthy. simpl negb.
    rewrite bind_when_true, bind_assoc.
    change (agents (set_simulation VNone s)) with (agents s).
    rewrite Hrun, bind_liftIO_Ok, bind_update. reflexivity.
  - destruct Hcall as [|Hf]; [discriminate |].
    rewrite bind_when_false, bind_read, Hf. simpl negb.
    rewrite bind_when_true, bind_assoc, Hrun, bind_liftIO_Ok, bind_update. reflexivity.
Qed.



End SimulatingStage.

(** ** The council in the simulation prompt *)

Section CouncilLines.

Variable repr : value -> string.

Lemma has_field_false (k : string) (v : value) :
  has_field k v = false -> exists ex, getitem v k = Raise ex.
Proof. unfold has_field, field_is. destruct (getitem v k); [discriminate | eauto]. Qed.

Lemma agent_line_described (a : value) :
  describable a = true -> agent_line repr a = Ok (described_agent_line repr a).
Proof.
  unfold describable. intros H.
  apply andb_prop in H as [H Hstance]. apply andb_prop in H as [Hname Hrole].
  unfold agent_line, described_agent_line.
  now rewrite (has_field_getitem _ _ Hname), (has_field_getitem _ _ Hrole),
    (has_field_getitem _ _ Hstance).
Qed.

Lemma agent_line_raises (a : value) :
  describable a = false -> exists ex, agent_line repr a = Raise ex.
Proof.
  unfold describable, agent_line. intros H.
  destruct (has_field "name" a) eqn:Hname.
  - rewrite (has_field_getitem _ _ Hname). simpl rbind.
    destruct (has_field "role" a) eqn:Hrole.
    + rewrite (has_field_getitem _ _ Hrole). simpl rbind.
      destruct (has_field_false _ _ H) as [ex ->]. simpl. eauto.
    + destruct (has_field_false _ _ Hrole) as [ex ->]. simpl. eauto.
  - destruct (has_field_false _ _ Hname) as [ex ->]. simpl. eauto.
Qed.

Lemma rmap_agent_line (members : list value) :
  forallb describable members = true ->
  rmap (agent_line repr) members = Ok (map (described_agent_line repr) members).
Proof.
  induction members as [| a rest IH]; [reflexivity |].
  simpl forallb. intros H. apply andb_prop in H as [Ha Hrest].
  simpl rmap. rewrite (agent_line_described a Ha), (IH Hrest). reflexivity.
Qed.

Lemma rmap_agent_line_raises (members : list value) :
  forallb describable members = false ->
  exists ex, rmap (agent_line repr) members = Raise ex.
Proof.
  induction members as [| a rest IH]; [discriminate |].
  simpl forallb. intros H. simpl rmap.
  destruct (describable a) eqn:Ha.
  - rewrite (agent_line_described a Ha). destruct (IH H) as [ex ->]. simpl. eauto.
  - destruct (agent_line_raises a Ha) as [ex ->]. simpl. eauto.
Qed.

Lemma agents_desc_members (agents : value) (members : list value) :
  getitem agents "agents" = Ok (VList members) ->
  forallb describable members = true ->
  agents_desc repr agents = Ok (join nl (map (described_agent_line repr) members)).
Proof.
  intros Hget Hall. unfold agents_desc. rewrite Hget. simpl.
  now rewrite (rmap_agent_line members Hall).
Qed.

Lemma agents_desc_describable (agents : value) :
  describable_council agents = true -> exists desc, agents_desc repr agents = Ok desc.
Proof.
  destruct agents as [| | | | | | d]; try discriminate.
  unfold describable_council, agents_desc, getitem.
  destruct (dict_lookup "agents" d) as [[| | | | s | members | items] |]; try discriminate.
  - destruct s; [| discriminate]. simpl. eauto.
  - intros H. simpl. rewrite (rmap_agent_line members H). simpl. eauto.
  - destruct items; [| discriminate]. simpl. eauto.
Qed.

Lemma agents_desc_undescribable (agents : value) :
  describable_council agents = false -> exists ex, agents_desc repr agents = Raise ex.
Proof.
  destruct agents as [| | | | | | d]; try (simpl; eauto; fail).
  unfold describable_council, agents_desc, getitem.
  destruct (dict_lookup "agents" d) as [[| | | | s | members | items] |];
    try (simpl; eauto; fail).
  - destruct s; [discriminate |]. simpl. eauto.
  - intros H. simpl. destruct (rmap_agent_line_raises members H) as [ex ->]. simpl. eauto.
  - destruct items as [| [k v] items]; [discriminate |]. simpl. eauto.
Qed.

Lemma has_context_value (s : session) :
  has_context s = true -> exists entry context,
    last (history s) = Some entry /\ getitem entry "description" = Ok context.
Proof.
  unfold has_context. destruct (last (history s)) as [entry |]; [| discriminate].
  intros H. exists entry, (field "description" entry).
  split; [reflexivity | now apply has_field_getitem].
Qed.

End CouncilLines.

(** ** Requests *)

Lemma calls_app (a b : list event) : calls (a ++ b) = (calls a + calls b)%nat.
Proof.
  induction a as [|ev a IH]; [reflexivity |]. destruct ev; simpl; now rewrite IH.
Qed.

Lemma calls_bind {A B} (m : M A) (k : A -> M B) (s : session) (n1 n2 : nat) :
  (calls (snd (m s)) <= n1)%nat ->
  (forall a s1, calls (snd (k a s1)) <= n2)%nat ->
  (calls (snd (bind m k s)) <= n1 + n2)%nat.
Proof.
  intros Hm Hk. unfold bind.
  destruct (m s) as [[[a|ex| |] s1] ev1]; simpl in *; try lia.
  specialize (Hk a s1). destruct (k a s1) as [[r s2] ev2]. simpl in *.
  rewrite calls_app. lia.
Qed.

Lemma silent_bind {A B} (m : M A) (k : A -> M B) :
  silent m -> (forall a, silent (k a)) -> silent (bind m k).
Proof.
  intros Hm Hk s.
  pose proof (calls_bind m k s 0 0) as H. specialize (Hm s).
  assert (calls (snd (bind m k s)) <= 0 + 0)%nat; [| lia].
  apply H; [lia |]. intros a s1. specialize (Hk a s1). lia.
Qed.

Lemma silent_ret {A} (a : A) : silent (ret a).
Proof. intros s. reflexivity. Qed.

Lemma silent_read : silent read.
Proof. intros s. reflexivity. Qed.

Lemma silent_update (f : session -> session) : silent (update f).
Proof. intros s. reflexivity. Qed.

Lemma silent_raise {A} (e : exn) : silent (@raise A e).
Proof. intros s. reflexivity. Qed.

Lemma silent_rerun {A} : silent (@st_rerun A).
Proof. intros s. reflexivity. Qed.

Lemma silent_stop {A} : silent (@st_stop A).
Proof. intros s. reflexivity. Qed.

Lemma silent_lift {A} (r : result A) : silent (lift r).
Proof. intros s. now destruct r. Qed.

Lemma silent_emit (ev : event) : calls [ev] = 0%nat -> silent (emit ev).
Proof. intros H s. exact H. Qed.

Lemma silent_when (b : bool) (m : M unit) : silent m -> silent (when b m).
Proof. intros H. destruct b; [exact H | apply silent_ret]. Qed.

Lemma silent_for_each {A} (f : nat -> A -> M unit) (l : list A) :
  (forall i x, silent (f i x)) -> forall i, silent (for_each f i l).
Proof.
  intros Hf. induction l as [|x l IH]; intros i; simpl.
  - apply silent_ret.
  - apply silent_bind; [apply Hf | intros _; apply IH].
Qed.

Create HintDb silent.
#[local] Hint Resolve silent_ret silent_read silent_update silent_raise silent_rerun
  silent_stop silent_lift : silent.

Ltac silent :=
  repeat first
    [ apply silent_bind; [| intros ?]
    | apply silent_when
    | apply silent_emit; reflexivity
    | solve [auto with silent] ].

Lemma last_context_cases (s : session) :
  (exists c, last_context s = (Val c, s, []))
  \/ (exists ex, last_context s = (Exc ex, s, [])).
Proof.
  unfold last_context. rewrite bind_read. unfold last_item.
  destruct (last (history s)) as [entry|]; [| right; eauto].
  rewrite bind_lift_Ok.
  destruct (getitem entry "description") as [c|ex]; [left | right]; eauto.
Qed.

Lemma scenario_card_silent (e : env) (i : nat) (sc : value) : silent (scenario_card e i sc).
Proof. unfold scenario_card. silent. destruct a0; silent. Qed.

Lemma agent_card_silent (i : nat) (agent : value) : silent (agent_card i agent).
Proof. unfold agent_card. silent. Qed.

Lemma input_stage_silent (e : env) (img : option image) : silent (input_stage e img).
Proof.
  unfold input_stage, preset. silent.
  destruct (negb (String.eqb (user_input e) EmptyString) || bool_decide (is_Some img));
    silent.
Qed.

Section Requests.

Variable repr : value -> string.
Variable json_loads : string -> reply value.

Lemma simulating_view_silent (e : env) (chaos : bool) :
  silent (simulating_view repr e chaos).
Proof.
  unfold simulating_view. silent.
  apply silent_for_each. intros i x. apply scenario_card_silent.
Qed.

Lemma recruit_agents_calls (e : env) (c : value) (img : option image) :
  calls (snd (recruit_agents repr json_loads e c img)) = 1%nat.
Proof.
  unfold recruit_agents.
  destruct (generate_content e recruit_model _) as [text|msg]; [| reflexivity].
  now destruct (json_loads text).
Qed.

Lemma run_simulation_calls_le (e : env) (c ag : value) (img : option image) (chaos : bool) :
  (calls (snd (run_simulation repr json_loads e c ag img chaos)) <= 1)%nat.
Proof.
  unfold run_simulation. destruct (agents_desc repr ag); [| simpl; lia].
  destruct (generate_content e simulation_model _) as [text|msg]; [| simpl; lia].
  destruct (json_loads text); simpl; lia.
Qed.

Lemma liftIO_calls {A} (io : IO A) (s : session) :
  calls (snd (liftIO io s)) = calls (snd io).
Proof. now destruct io as [[a|ex] evs]. Qed.

Lemma run_simulation_calls_once (e : env) (c ag : value) (img : option image)
    (chaos : bool) (desc : string) :
  agents_desc repr ag = Ok desc ->
  exists r evs,
    run_simulation repr json_loads e c ag img chaos =
    (Ok r,
     GenerateContent simulation_model
       (simulation_inputs (simulation_prompt repr desc c chaos) img) :: evs)
    /\ calls evs = 0%nat.
Proof.
  intros Hd. unfold run_simulation. rewrite Hd.
  destruct (generate_content e simulation_model _) as [text|msg]; [| eauto].
  destruct (json_loads text); eauto.
Qed.

Lemma run_simulation_undescribable (e : env) (c ag : value) (img : option image)
    (chaos : bool) :
  describable_council ag = false ->
  exists ex, run_simulation repr json_loads e c ag img chaos = (Raise ex, []).
Proof.
  intros H. destruct (agents_desc_undescribable repr ag H) as [ex Hex].
  exists ex. unfold run_simulation. now rewrite Hex.
Qed.

End Requests.

Lemma getitem_get_default (v x default : value) (k : string) :
  getitem v k = Ok x -> get_default v k default = Ok x.
Proof.
  destruct v; try discriminate. unfold getitem, get_default.
  now destruct (dict_lookup k d).
Qed.

Lemma get_default_dict (v default : value) (k : string) :
  is_dict v = true -> exists x, get_default v k default = Ok x.
Proof.
  destruct v; try discriminate. intros _. unfold get_default.
  destruct (dict_lookup k d); eauto.
Qed.

Lemma getitem_is_dict (v x : value) (k : string) : getitem v k = Ok x -> is_dict v = true.
Proof. now destruct v. Qed.

Section SimulatingClaims.

Variable repr : value -> string.
Variable json_loads : string -> reply value.

(** C3: in the SIMULATING stage with a current simulation of the declared
    shape, pressing "Explore This Path" on scenario [i] appends exactly that
    scenario record, with all its fields, to the history, clears the current
    simulation and the current council, sets the stage to RECRUITING and
    reruns; the session state has no other component. *)
Theorem explore_this_path
    (e : env) (s : session) (entry context : value) (scs : list value)
    (i : nat) (sc : value) :
  api_key_missing e = false ->
  stage s = SIMULATING ->
  clicked e = Some (ExploreThisPath i) ->
  last (history s) = Some entry ->
  getitem entry "description" = Ok context ->
  Forall (fun step => has_field "title" step = true) (history s) ->
  SimulationOutput_ok (simulation s) = true ->
  getitem (simulation s) "scenarios" = Ok (VList scs) ->
  scs !! i = Some sc ->
  exists evs,
    script repr json_loads e s =
    (RerunSig,
     {| stage := RECRUITING; history := history s ++ [sc]; agents := VNone;
        simulation := VNone |},
     evs).
Proof.
  intros Hkey Hstage Hclick Hlast Hdesc Htitles Hshape Hscs Hi.
  rewrite script_simulating; [| exact Hkey | rewrite Hclick; congruence | exact Hstage].
  rewrite (simulating_stage_keep repr json_loads e _ s context
             (last_context_value s entry context Hlast Hdesc));
    [| rewrite (button_clicked e _ _ Hclick); reflexivity
     | exact (getitem_truthy _ _ _ Hscs)].
  (* the shape of the simulation *)
  unfold SimulationOutput_ok in Hshape. rewrite Hscs in Hshape.
  apply andb_prop in Hshape as [Hshape Halert].
  apply andb_prop in Hshape as [Hall Hsyn].
  assert (Hnodes : Forall (fun x => ScenarioNode_ok x = true) scs).
  { apply Forall_forall. intros x Hx. apply list_elem_of_In in Hx.
    rewrite forallb_forall in Hall. now apply Hall. }
  assert (Hleaves : Forall (fun x => leaf_ready x = true) scs).
  { eapply Forall_impl; [exact Hnodes |]. apply ScenarioNode_leaf_ready. }
  destruct (draw_advanced_tree_described repr (history s) (simulation s) Htitles)
    as [_ Hdraw].
  destruct (Hdraw scs Hscs Hleaves) as (g & Hg & _).
  pose proof (has_field_getitem _ _ (field_is_has_field _ _ _ Hsyn)) as Hsynthesis.
  pose proof (getitem_is_dict _ _ _ Hscs) as Hdict.
  destruct (get_default_dict (simulation s) VNone "black_swan_alert" Hdict) as [alert Ha].
  destruct (get_default_dict (simulation s) (VStr "Chaos Injection Active")
              "black_swan_alert" Hdict) as [shown Hshown].
  (* the cards *)
  assert (Hcards : exists cevs,
            for_each (scenario_card e) 0 scs s = (RerunSig, explored sc s, cevs)).
  { rewrite <- (take_drop_middle scs i sc Hi).
    apply scenario_cards_explore.
    - exact (proj1 (Forall_lookup _ scs) Hnodes i sc Hi).
    - now apply Forall_take.
    - rewrite Hclick. do 2 f_equal. simpl.
      rewrite length_take. apply lookup_lt_Some in Hi. lia. }
  destruct Hcards as [cevs Hcards].
  assert (Hlen : (List.length scs =? 0)%nat = false).
  { apply lookup_lt_Some in Hi. apply Nat.eqb_neq. lia. }
  assert (Hrest :
    (do scenarios <- lift (get_default (simulation s) "scenarios" (VList []));
     do n <- lift (len scenarios);
     when (n =? 0)%nat (raise StreamlitAPIException) ;;
     do cards <- lift (iterate scenarios);
     for_each (scenario_card e) 0 cards ;;
     do s <- read;
     do report_md <- lift (generate_markdown_report repr (clock e) (history s));
     emit (DownloadButton report_md)) s = (RerunSig, explored sc s, cevs)).
  { rewrite (getitem_get_default _ _ _ _ Hscs), bind_lift_Ok. simpl len.
    rewrite bind_lift_Ok, Hlen, bind_when_false. simpl iterate.
    rewrite bind_lift_Ok. unfold bind. now rewrite Hcards. }
  unfold simulating_view.
  rewrite bind_read, Hg, bind_lift_Ok, bind_emit, Hsynthesis, bind_lift_Ok, bind_emit.
  unfold get. rewrite Ha, bind_lift_Ok.
  destruct (truthy alert || false).
  - rewrite bind_when_true, bind_assoc, Hshown, bind_lift_Ok, bind_emit, Hrest.
    simpl. eauto.
  - rewrite bind_when_false, Hrest. simpl. eauto.
Qed.

(** C4: in the SIMULATING stage, pressing "Inject Chaos" discards the
    current simulation (the run is the same as from a session without one),
    keeps the stage SIMULATING with history and council as they were, and
    sends one simulation request to gemini-2.5-flash whose prompt is the
    text of lines 108-114 with the black-swan instruction of line 106,
    "INJECT A BLACK SWAN EVENT: Introduce a low-probability, high-impact
    disruption into the scenarios.", on its fifth line; the session then
    holds what that call returned. *)
Theorem inject_chaos_requests_black_swan
    (e : env) (s : session) (entry context : value) (desc : string) :
  api_key_missing e = false ->
  stage s = SIMULATING ->
  clicked e = Some InjectChaos ->
  last (history s) = Some entry ->
  getitem entry "description" = Ok context ->
  agents_desc repr (agents s) = Ok desc ->
  let instruction :=
    "⚠️ INJECT A BLACK SWAN EVENT: Introduce a low-probability, high-impact disruption into the scenarios." in
  let prompt :=
    nl +:+ "    You are TIMEFOLD, an Advanced Strategic Foresight Engine." +:+ nl
    +:+ "    ACTIVE COUNCIL: " +:+ desc +:+ nl
    +:+ "    TASK: Simulate a debate, generate 3 divergent future scenarios. Include reasoning traces and confidence metrics."
    +:+ nl
    +:+ "    " +:+ instruction +:+ nl
    +:+ "    CURRENT STATE: " +:+ fmt repr context +:+ nl
    +:+ "    " in
  let inputs :=
    match uploaded_file e with
    | Some img => [PText prompt; PImage img; PText "Incorporate visual insights."]
    | None => [PText prompt]
    end in
  let model :=
    {| model_name := "gemini-2.5-flash";
       response_mime_type := "application/json";
       response_schema := SimulationOutput |} in
  is_substring instruction prompt = true
  /\ script repr json_loads e s = script repr json_loads e (set_simulation VNone s)
  /\ exists sig r evs,
       script repr json_loads e s =
       (sig,
        {| stage := SIMULATING; history := history s; agents := agents s;
           simulation := r |},
        GenerateContent model inputs :: evs)
       /\ calls evs = 0
       /\ fst (run_simulation repr json_loads e context (agents s) (uploaded_file e) true)
          = Ok r.
Proof.
  intros Hkey Hstage Hclick Hlast Hdesc Hagents instruction prompt inputs model.
  assert (Hprompt : prompt = simulation_prompt repr desc context true) by reflexivity.
  assert (Hinputs : inputs = simulation_inputs prompt (uploaded_file e)).
  { unfold inputs, simulation_inputs. now destruct (uploaded_file e). }
  assert (Hmodel : model = simulation_model) by reflexivity.
  assert (Hreset : clicked e <> Some ResetSystem) by (rewrite Hclick; congruence).
  assert (Hb : button e InjectChaos = true).
  { rewrite (button_clicked e _ _ Hclick). reflexivity. }
  assert (Hexplore : forall i, button e (ExploreThisPath i) = false).
  { intros i. rewrite (button_clicked e _ _ Hclick). reflexivity. }
  destruct (run_simulation_calls_once repr json_loads e context (agents s) (uploaded_file e)
              true desc Hagents) as (r & evs0 & Hrun & Hquiet).
  rewrite <- Hprompt, <- Hinputs, <- Hmodel in Hrun.
  set (call := GenerateContent model inputs) in *.
  pose proof (simulating_stage_call repr json_loads e (uploaded_file e) s context r
                (call :: evs0)
                (last_context_value s entry context Hlast Hdesc) (or_introl Hb)) as Hs.
  pose proof (simulating_stage_call repr json_loads e (uploaded_file e)
                (set_simulation VNone s) context r (call :: evs0)
                (last_context_value (set_simulation VNone s) entry context Hlast Hdesc)
                (or_introl Hb)) as Hs0.
  rewrite Hb in Hs, Hs0. specialize (Hs Hrun). specialize (Hs0 Hrun).
  split; [| split].
  - unfold prompt.
    do 9 apply is_substring_app_r. apply is_substring_app_l. reflexivity.
  - rewrite !script_simulating by assumption. rewrite Hs, Hs0. reflexivity.
  - rewrite script_simulating by assumption. rewrite Hs.
    exists (fst (fst (simulating_view repr e true (set_simulation r s)))), r.
    eexists. split; [| split; [| now rewrite Hrun]].
    + rewrite (simulating_view_keeps repr e true Hexplore (set_simulation r s)).
      unfold set_simulation. rewrite Hstage. reflexivity.
    + rewrite calls_app, Hquiet, (simulating_view_silent repr e true). reflexivity.
Qed.


(** What the amended C1 leaves out: after the caught failure the same run
    subscripts the unset simulation (line 273) and ends with an uncaught
    TypeError, once the tree of the history has been drawn. *)
Remark simulation_failure_then_TypeError
    (e : env) (s : session) (entry context : value) (desc msg : string) :
  api_key_missing e = false ->
  clicked e <> Some ResetSystem ->
  stage s = SIMULATING ->
  last (history s) = Some entry ->
  getitem entry "description" = Ok context ->
  agents_desc repr (agents s) = Ok desc ->
  Forall (fun step => has_field "title" step = true) (history s) ->
  truthy (simulation s) = false ->
  (forall inputs, generate_content e simulation_model inputs = Fails msg) ->
  exists evs, script repr json_loads e s = (Exc TypeError, set_simulation VNone s, evs).
Proof.
  intros Hkey Hreset Hstage Hlast Hdesc Hagents Htitles Hnone Hfail.
  rewrite script_simulating by assumption.
  assert (Hrun : run_simulation repr json_loads e context (agents s) (uploaded_file e)
                   (button e InjectChaos)
                 = (Ok VNone,
                    [GenerateContent simulation_model
                       (simulation_inputs
                          (simulation_prompt repr desc context (button e InjectChaos))
                          (uploaded_file e));
                     StError ("Simulation Error: " +:+ msg)])).
  { unfold run_simulation. now rewrite Hagents, Hfail. }
  rewrite (simulating_stage_call repr json_loads e (uploaded_file e) s context VNone _
             (last_context_value s entry context Hlast Hdesc) (or_intror Hnone) Hrun).
  destruct (draw_advanced_tree_described repr (history s) VNone Htitles) as [Hdraw _].
  destruct (Hdraw eq_refl) as (g & Hg & _).
  unfold simulating_view. rewrite bind_read.
  change (simulation (set_simulation VNone s)) with VNone.
  change (history (set_simulation VNone s)) with (history s).
  rewrite Hg, bind_lift_Ok, bind_emit.
  change (getitem VNone "synthesis") with (@Raise value TypeError).
  rewrite bind_lift_Raise. simpl. eauto.
Qed.

End SimulatingClaims.

(** ** What the history holds *)

Lemma preserves_keeps {A} (I : session -> Prop) (m : M A) :
  keeps_state m -> preserves I m.
Proof. intros H s Hs. now rewrite H. Qed.

Lemma preserves_bind {A B} (I : session -> Prop) (m : M A) (k : A -> M B) :
  preserves I m -> (forall a, preserves I (k a)) -> preserves I (bind m k).
Proof.
  intros Hm Hk s Hs. unfold bind. specialize (Hm s Hs).
  destruct (m s) as [[[a| | |] s1] ev1]; simpl in *; try assumption.
  specialize (Hk a s1 Hm). now destruct (k a s1) as [[r s2] ev2].
Qed.

Lemma preserves_bind_lift {A B} (I : session -> Prop) (r : result A) (k : A -> M B) :
  (forall a, r = Ok a -> preserves I (k a)) -> preserves I (bind (lift r) k).
Proof.
  intros Hk s Hs. destruct r as [a|ex]; [| exact Hs].
  rewrite bind_lift_Ok. now apply (Hk a).
Qed.

Lemma preserves_when (I : session -> Prop) (b : bool) (m : M unit) :
  preserves I m -> preserves I (when b m).
Proof. intros H. destruct b; [exact H | now apply preserves_keeps, keeps_ret]. Qed.

Lemma preserves_for_each {A} (I : session -> Prop) (f : nat -> A -> M unit) (l : list A) :
  (forall i x, preserves I (f i x)) -> forall i, preserves I (for_each f i l).
Proof.
  intros Hf. induction l as [|x l IH]; intros i; simpl.
  - apply preserves_keeps, keeps_ret.
  - apply preserves_bind; [apply Hf | intros _; apply IH].
Qed.

Lemma preserves_update (I : session -> Prop) (f : session -> session) :
  (forall s, I s -> I (f s)) -> preserves I (update f).
Proof. intros H s Hs. now apply H. Qed.

Lemma getitem_has_field (v x : value) (k : string) : getitem v k = Ok x -> has_field k v = true.
Proof. unfold has_field, field_is. now intros ->. Qed.

Lemma keeps_liftIO {A} (io : IO A) : keeps_state (liftIO io).
Proof. intros s. now destruct io as [[a|ex] evs]. Qed.

Lemma last_context_keeps : keeps_state last_context.
Proof. unfold last_context. keeps. Qed.

Lemma agent_card_keeps (i : nat) (agent : value) : keeps_state (agent_card i agent).
Proof. unfold agent_card. keeps. Qed.

Lemma printable_append (x : value) (s : session) :
  report_ready x = true -> printable s -> printable (append_history x s).
Proof.
  unfold printable. simpl. intros Hx Hs. apply Forall_app. split; [exact Hs |].
  now repeat constructor.
Qed.

Section History.

Variable repr : value -> string.
Variable json_loads : string -> reply value.

Lemma scenario_card_printable (e : env) (i : nat) (sc : value) :
  preserves printable (scenario_card e i sc).
Proof.
  unfold scenario_card.
  apply preserves_bind_lift. intros risk _.
  apply preserves_bind_lift. intros critical _.
  apply preserves_bind; [apply preserves_keeps; destruct critical; keeps | intros _].
  apply preserves_bind_lift. intros title Ht.
  apply preserves_bind_lift. intros horizon _.
  apply preserves_bind_lift. intros probability Hp.
  apply preserves_bind_lift. intros impact _.
  apply preserves_bind_lift. intros description Hd.
  apply preserves_bind; [apply preserves_keeps, keeps_emit | intros _].
  apply preserves_bind; [apply preserves_keeps; keeps | intros _].
  apply preserves_when. intros s Hs. simpl.
  unfold printable. simpl. apply Forall_app. split; [exact Hs |].
  repeat constructor. unfold report_ready.
  rewrite (getitem_has_field _ _ _ Ht), (getitem_has_field _ _ _ Hd),
    (getitem_has_field _ _ _ Hp). simpl. apply orb_true_r.
Qed.

Lemma simulating_stage_printable (e : env) (img : option image) :
  preserves printable (simulating_stage repr json_loads e img).
Proof.
  unfold simulating_stage.
  apply preserves_bind; [apply preserves_keeps, last_context_keeps | intros context].
  apply preserves_bind; [apply preserves_when, preserves_update; now intros s | intros _].
  apply preserves_bind; [apply preserves_keeps, keeps_read | intros s0].
  apply preserves_bind.
  { apply preserves_when, preserves_bind; [apply preserves_keeps, keeps_liftIO |].
    intros r. apply preserves_update. now intros s. }
  intros _. unfold simulating_view.
  repeat (apply preserves_bind; [solve [apply preserves_keeps; keeps] | intros ?]).
  apply preserves_bind.
  { apply preserves_for_each. intros i x. apply scenario_card_printable. }
  intros _. apply preserves_keeps. keeps.
Qed.

Lemma recruiting_stage_printable (e : env) (img : option image) :
  preserves printable (recruiting_stage repr json_loads e img).
Proof.
  unfold recruiting_stage.
  apply preserves_bind; [apply preserves_keeps, last_context_keeps | intros context].
  apply preserves_bind; [apply preserves_keeps, keeps_emit | intros _].
  apply preserves_bind; [apply preserves_keeps, keeps_emit | intros _].
  apply preserves_bind; [apply preserves_keeps, keeps_liftIO | intros council].
  apply preserves_bind; [apply preserves_update; now intros s | intros _].
  apply preserves_bind; [apply preserves_keeps, keeps_read | intros s0].
  apply preserves_bind; [apply preserves_keeps, keeps_lift | intros members].
  apply preserves_bind.
  { apply preserves_keeps, keeps_for_each. intros i x. apply agent_card_keeps. }
  intros _. apply preserves_when.
  apply preserves_bind; [apply preserves_update; now intros s | intros _].
  apply preserves_keeps. intros s. reflexivity.
Qed.

Lemma preset_printable (description : string) : preserves printable (preset description).
Proof.
  unfold preset.
  apply preserves_bind; [apply preserves_update; intros s; now apply printable_append |].
  intros _.
  apply preserves_bind; [apply preserves_update; now intros s | intros _].
  apply preserves_keeps. intros s. reflexivity.
Qed.

Lemma input_stage_printable (e : env) (img : option image) :
  preserves printable (input_stage e img).
Proof.
  unfold input_stage.
  repeat (apply preserves_bind; [apply preserves_when, preset_printable | intros _]).
  apply preserves_when.
  destruct (negb (String.eqb (user_input e) EmptyString) || bool_decide (is_Some img)).
  - apply preserves_bind;
      [apply preserves_update; intros s; now apply printable_append | intros _].
    apply preserves_bind; [apply preserves_update; now intros s | intros _].
    apply preserves_keeps. intros s. reflexivity.
  - apply preserves_keeps, keeps_emit.
Qed.

(** Every run keeps the history printable: what the script appends is a
    START entry or a scenario whose card has just been drawn. *)
Lemma script_printable (e : env) : preserves printable (script repr json_loads e).
Proof.
  unfold script. destruct (api_key_missing e).
  - apply preserves_keeps. keeps.
  - apply preserves_bind.
    { apply preserves_when.
      apply preserves_bind; [apply preserves_update; intros s _; constructor | intros _].
      apply preserves_keeps. intros s. reflexivity. }
    intros _. apply preserves_bind; [apply preserves_keeps, keeps_read | intros s0].
    destruct (stage s0).
    + apply input_stage_printable.
    + apply recruiting_stage_printable.
    + apply simulating_stage_printable.
Qed.

(** Every history a user can reach satisfies what the tree and the report
    ask of their input. *)
Lemma reachable_printable (s : session) : reachable repr json_loads s -> printable s.
Proof.
  induction 1 as [|e s _ IH]; [constructor | now apply script_printable].
Qed.

(** The tree is not drawn for an empty history: the stage stops at
    [history[-1]] (line 253). *)
Remark simulating_stage_empty_history (e : env) (img : option image) (s : session) :
  history s = [] ->
  simulating_stage repr json_loads e img s = (Exc IndexError, s, []).
Proof.
  intros H. unfold simulating_stage, last_context.
  rewrite bind_assoc, bind_read. unfold last_item. rewrite H. reflexivity.
Qed.

End History.

(** ** The claims on sample data *)

Example lower_string_Critical : lower_string "Critical" = "critical".
Proof. reflexivity. Qed.

Example risk_color_medium : risk_color (lower_string "Medium") = "#003366".
Proof. reflexivity. Qed.

Example is_substring_empty : is_substring EmptyString "abc" = true.
Proof. reflexivity. Qed.

Example report_of_seed :
  generate_markdown_report Demo.repr "2026-01-01 00:00:00" [Demo.seed]
  = Ok ("# TIMEFOLD STRATEGIC REPORT" +:+ nl
        +:+ "**Date:** 2026-01-01 00:00:00" +:+ nl +:+ nl
        +:+ "## Step 1: START" +:+ nl
        +:+ "_AI Ban_" +:+ nl +:+ nl
        +:+ "---" +:+ nl).
Proof. reflexivity. Qed.

Example agents_desc_of_council :
  agents_desc Demo.repr (Demo.council [Demo.vega; Demo.orion; Demo.lyra])
  = Ok Demo.council_desc.
Proof. reflexivity. Qed.

Example four_agents_do_not_fit :
  cards_fit 0 [Demo.vega; Demo.orion; Demo.lyra; Demo.atlas] = false.
Proof. reflexivity. Qed.

Example json_loads_malformed :
  Demo.json_loads "Sorry, I cannot help with that." =
  Fails "Expecting value: line 1 column 1 (char 0)".
Proof. reflexivity. Qed.



(** The run above ends at line 273. *)
Example simulation_failure_crashes :
  fst (fst (script Demo.repr Demo.json_loads
              (Demo.world None (Fails "503 Service Unavailable")) (Demo.simulating VNone)))
  = Exc TypeError.
Proof. reflexivity. Qed.



Lemma explore_this_path_witness :
  exists evs,
    script Demo.repr Demo.json_loads
      (Demo.world (Some (ExploreThisPath 1)) (Fails "unused"))
      (Demo.simulating (Demo.batch [Demo.sc_1; Demo.sc_2; Demo.sc_3]))
    = (RerunSig,
       {| stage := RECRUITING; history := [Demo.seed; Demo.sc_2]; agents := VNone;
          simulation := VNone |},
       evs).
Proof.
  exact (explore_this_path Demo.repr Demo.json_loads
           (Demo.world (Some (ExploreThisPath 1)) (Fails "unused"))
           (Demo.simulating (Demo.batch [Demo.sc_1; Demo.sc_2; Demo.sc_3]))
           Demo.seed (VStr "AI Ban") [Demo.sc_1; Demo.sc_2; Demo.sc_3] 1 Demo.sc_2
           eq_refl eq_refl eq_refl eq_refl eq_refl
           ltac:(repeat constructor)
           eq_refl eq_refl eq_refl).
Defined.

Lemma inject_chaos_requests_black_swan_witness :
  let e := Demo.world (Some InjectChaos)
             (Returns (Demo.to_json (Demo.batch [Demo.sc_1; Demo.sc_2; Demo.sc_3]))) in
  let s := Demo.simulating (Demo.batch [Demo.sc_1]) in
  let instruction :=
    "⚠️ INJECT A BLACK SWAN EVENT: Introduce a low-probability, high-impact disruption into the scenarios." in
  let prompt :=
    nl +:+ "    You are TIMEFOLD, an Advanced Strategic Foresight Engine." +:+ nl
    +:+ "    ACTIVE COUNCIL: " +:+ Demo.council_desc +:+ nl
    +:+ "    TASK: Simulate a debate, generate 3 divergent future scenarios. Include reasoning traces and confidence metrics."
    +:+ nl
    +:+ "    " +:+ instruction +:+ nl
    +:+ "    CURRENT STATE: AI Ban" +:+ nl
    +:+ "    " in
  exists sig evs,
    script Demo.repr Demo.json_loads e s =
    (sig,
     {| stage := SIMULATING; history := [Demo.seed];
        agents := Demo.council [Demo.vega; Demo.orion; Demo.lyra];
        simulation := Demo.batch [Demo.sc_1; Demo.sc_2; Demo.sc_3] |},
     GenerateContent
       {| model_name := "gemini-2.5-flash";
          response_mime_type := "application/json";
          response_schema := SimulationOutput |}
       [PText prompt] :: evs)
    /\ calls evs = 0%nat.
Proof.
  destruct (inject_chaos_requests_black_swan Demo.repr Demo.json_loads
              (Demo.world (Some InjectChaos)
                 (Returns (Demo.to_json (Demo.batch [Demo.sc_1; Demo.sc_2; Demo.sc_3]))))
              (Demo.simulating (Demo.batch [Demo.sc_1]))
              Demo.seed (VStr "AI Ban") Demo.council_desc
              eq_refl eq_refl eq_refl eq_refl eq_refl eq_refl)
    as (_ & _ & sig & r & evs & Hrun & Hquiet & Hr).
  exists sig, evs. split; [| exact Hquiet].
  rewrite Hrun. vm_compute in Hr. injection Hr as <-. reflexivity.
Defined.



Lemma generate_markdown_report_described_witness :
  generate_markdown_report Demo.repr "2026-01-01 00:00:00" [Demo.seed; Demo.sc_2]
  = Ok (described_report Demo.repr "2026-01-01 00:00:00" [Demo.seed; Demo.sc_2]).
Proof.
  exact (proj1
    (generate_markdown_report_described Demo.repr "2026-01-01 00:00:00"
       [Demo.seed; Demo.sc_2]
       ltac:(repeat constructor))).
Defined.

Lemma generate_markdown_report_missing_probability_witness :
  generate_markdown_report Demo.repr "2026-01-01 00:00:00"
    ([Demo.seed] ++ VDict Demo.no_probability :: [])
  = Raise (KeyError "probability").
Proof.
  exact (proj2 (proj2
    (generate_markdown_report_missing_probability Demo.repr "2026-01-01 00:00:00"
       [Demo.seed] [] Demo.no_probability eq_refl eq_refl))
    ltac:(repeat constructor) eq_refl eq_refl).
Defined.

Lemma initialize_with_image_only_witness :
  script Demo.repr Demo.json_loads
    (Demo.with_upload Demo.photo (Demo.world (Some InitializeSystem) (Fails "unused")))
    fresh_session
  = (RerunSig,
     {| stage := RECRUITING;
        history := [VDict [("title", VStr "START");
                           ("description", VStr "Analyze the uploaded visual data.")]];
        agents := VNone;
        simulation := VNone |},
     []).
Proof.
  exact (initialize_with_image_only Demo.repr Demo.json_loads
           (Demo.with_upload Demo.photo (Demo.world (Some InitializeSystem) (Fails "unused")))
           fresh_session Demo.photo eq_refl eq_refl eq_refl eq_refl eq_refl).
Defined.

Lemma draw_advanced_tree_phantom_root_witness :
  exists g,
    draw_advanced_tree Demo.repr [] (Demo.batch [Demo.sc_1; Demo.sc_2]) = Ok g
    /\ edge_stmts g =
       [(plain "H_-1", plain "OPT_sc_1", [("label", "Risk: Low")]);
        (plain "H_-1", plain "OPT_sc_2", [("label", "Risk: High")])]
    /\ map fst (node_stmts g) = ["OPT_sc_1"; "OPT_sc_2"].
Proof.
  destruct (draw_advanced_tree_phantom_root Demo.repr
              (Demo.batch [Demo.sc_1; Demo.sc_2]) [Demo.sc_1; Demo.sc_2]
              ltac:(discriminate) eq_refl
              ltac:(repeat constructor)) as (g & Hg & He & _ & _ & _ & Hn & _).
  exists g. split; [exact Hg |]. split; [rewrite He | rewrite Hn]; reflexivity.
Defined.

(** ** How runs end *)

Lemma ends_bind_keeps {A B} (m : M A) (k : A -> M B) (s : session)
    (Keep Jump : session -> Prop) :
  keeps_state m ->
  Keep s ->
  (forall a ev, m s = (Val a, s, ev) -> ends (k a) s Keep Jump) ->
  ends (bind m k) s Keep Jump.
Proof.
  intros Hm HK Hk. unfold ends, bind in *. specialize (Hm s).
  destruct (m s) as [[[a|ex| |] s1] ev1]; simpl in Hm; subst s1; auto.
  specialize (Hk a ev1 eq_refl). now destruct (k a s) as [[r s2] ev2].
Qed.

Lemma ends_bind_update {B} (f : session -> session) (k : unit -> M B) (s : session)
    (Keep Jump : session -> Prop) :
  ends (k tt) (f s) Keep Jump -> ends (bind (update f) k) s Keep Jump.
Proof. unfold ends. now rewrite bind_update. Qed.

Lemma ends_bind_when {B} (b : bool) (m : M unit) (k : unit -> M B) (s : session)
    (Keep Jump : session -> Prop) :
  (b = true -> ends (bind m k) s Keep Jump) ->
  (b = false -> ends (k tt) s Keep Jump) ->
  ends (bind (when b m) k) s Keep Jump.
Proof.
  intros Ht Hf. destruct b.
  - now apply Ht.
  - unfold ends. rewrite bind_when_false. now apply Hf.
Qed.

Lemma ends_keeps {A} (m : M A) (s : session) (Keep Jump : session -> Prop) :
  keeps_state m -> Keep s -> ends m s Keep Jump.
Proof.
  intros Hm HK. unfold ends. specialize (Hm s).
  destruct (m s) as [[[a|ex| |] s1] ev1]; simpl in Hm; subst s1; auto.
Qed.

Lemma lift_Val {A} (r : result A) (a : A) (s s' : session) (ev : list event) :
  lift r s = (Val a, s', ev) -> r = Ok a.
Proof. destruct r; simpl; unfold ret, raise; congruence. Qed.

Lemma read_Val (a s s' : session) (ev : list event) : read s = (Val a, s', ev) -> a = s.
Proof. unfold read. congruence. Qed.

Lemma last_context_Val (s s' : session) (c : value) (ev : list event) :
  last_context s = (Val c, s', ev) -> history s <> [].
Proof.
  unfold last_context. rewrite bind_read. unfold last_item.
  destruct (history s); [discriminate | discriminate].
Qed.

Lemma button_true (e : env) (w : widget) : button e w = true -> clicked e = Some w.
Proof. unfold button. apply bool_decide_eq_true_1. Qed.

Lemma ends_bind_same {A B} (m : M A) (k : A -> M B) (s : session)
    (Keep Jump : session -> Prop) :
  ends m s (fun s' => s' = s) Jump ->
  Keep s ->
  (forall a ev, m s = (Val a, s, ev) -> ends (k a) s Keep Jump) ->
  ends (bind m k) s Keep Jump.
Proof.
  intros Hm HK Hk. unfold ends, bind in *.
  destruct (m s) as [[[a|ex| |] s1] ev1].
  - subst s1. specialize (Hk a ev1 eq_refl). now destruct (k a s) as [[r s2] ev2].
  - now subst s1.
  - destruct Hm as [-> | Hm]; auto.
  - now subst s1.
Qed.

Lemma ends_ext {A} (m m' : M A) (s : session) (Keep Jump : session -> Prop) :
  m s = m' s -> ends m' s Keep Jump -> ends m s Keep Jump.
Proof. unfold ends. now intros ->. Qed.

Lemma ends_weaken {A} (m : M A) (s : session) (Keep Jump Keep' Jump' : session -> Prop) :
  ends m s Keep Jump ->
  (forall s', Keep s' -> Keep' s') ->
  (forall s', Jump s' -> Jump' s') ->
  ends m s Keep' Jump'.
Proof.
  unfold ends. intros H HK HJ.
  destruct (m s) as [[[a|ex| |] s1] ev1]; auto. destruct H; auto.
Qed.

Ltac step_keeps :=
  apply ends_bind_keeps; [solve [keeps] | try assumption | intros ? ? ?].

Lemma scenario_card_ends (e : env) (i : nat) (sc : value) (s : session)
    (Keep Jump : session -> Prop) :
  Keep s ->
  (clicked e = Some (ExploreThisPath i) -> report_ready sc = true ->
   Jump (explored sc s)) ->
  ends (scenario_card e i sc) s Keep Jump.
Proof.
  intros HK HJ. unfold scenario_card.
  step_keeps. step_keeps.
  apply ends_bind_keeps; [destruct a0; keeps | assumption | intros _ _ _].
  apply ends_bind_keeps; [keeps | assumption | intros title ? Ht]. apply lift_Val in Ht.
  step_keeps.
  apply ends_bind_keeps; [keeps | assumption | intros prob ? Hp]. apply lift_Val in Hp.
  step_keeps.
  apply ends_bind_keeps; [keeps | assumption | intros desc ? Hd]. apply lift_Val in Hd.
  step_keeps. step_keeps.
  destruct (button e (ExploreThisPath i)) eqn:Hb.
  - unfold ends. simpl. right. apply HJ; [now apply button_true |].
    unfold report_ready.
    rewrite (getitem_has_field _ _ _ Ht), (getitem_has_field _ _ _ Hd),
      (getitem_has_field _ _ _ Hp). simpl. apply orb_true_r.
  - unfold ends. simpl. exact HK.
Qed.

Lemma scenario_cards_ends (e : env) (s : session) (Keep Jump : session -> Prop) :
  Keep s ->
  forall cards i0,
    (forall j sc, cards !! j = Some sc ->
       clicked e = Some (ExploreThisPath (i0 + j)) -> report_ready sc = true ->
       Jump (explored sc s)) ->
    ends (for_each (scenario_card e) i0 cards) s Keep Jump.
Proof.
  intros HK. induction cards as [|x cards IH]; intros i0 HJ; simpl.
  - unfold ends. simpl. exact HK.
  - apply ends_bind_same; [| exact HK |].
    + apply scenario_card_ends; [reflexivity |]. intros Hc Hr. 
      apply (HJ 0%nat x eq_refl); [now rewrite Nat.add_0_r | exact Hr].
    + intros _ _ _. apply IH. intros j sc Hj Hc Hr.
      apply (HJ (S j) sc Hj); [| exact Hr]. rewrite Hc. do 2 f_equal. lia.
Qed.

Section Moves.

Variable repr : value -> string.
Variable json_loads : string -> reply value.

Lemma simulating_view_ends (e : env) (chaos : bool) (s : session)
    (Keep Jump : session -> Prop) :
  Keep s ->
  (forall i sc cards,
     scenario_cards (simulation s) = Ok cards -> cards !! i = Some sc ->
     clicked e = Some (ExploreThisPath i) -> report_ready sc = true ->
     Jump (explored sc s)) ->
  ends (simulating_view repr e chaos) s Keep Jump.
Proof.
  intros HK HJ. unfold simulating_view.
  apply ends_bind_keeps; [keeps | assumption | intros s0 ? Hs0].
  apply read_Val in Hs0. subst s0.
  do 5 step_keeps.
  apply ends_bind_keeps; [keeps | assumption | intros _ _ _].
  apply ends_bind_keeps; [keeps | assumption | intros scenarios ? Hsc].
  apply lift_Val in Hsc.
  step_keeps.
  apply ends_bind_keeps; [keeps | assumption | intros _ _ _].
  apply ends_bind_keeps; [keeps | assumption | intros cards ? Hcards].
  apply lift_Val in Hcards.
  apply ends_bind_same; [| exact HK |].
  - apply scenario_cards_ends; [reflexivity |]. intros j sc Hj Hc Hr.
    apply (HJ j sc cards); try assumption.
    unfold scenario_cards. rewrite Hsc. exact Hcards.
  - intros _ _ _. apply ends_keeps; [keeps | exact HK].
Qed.

Lemma simulating_stage_ends (e : env) (img : option image) (s : session) :
  stage s = SIMULATING ->
  ends (simulating_stage repr json_loads e img) s (settled s) (transition e s).
Proof.
  intros Hstage.
  assert (HK : forall r, settled s (set_simulation r s)).
  { intros r. repeat split. intros H. now rewrite Hstage in H. }
  assert (HK0 : settled s s) by (repeat split).
  unfold simulating_stage.
  apply ends_bind_keeps; [apply last_context_keeps | exact HK0 | intros context ? _].
  apply ends_bind_when; [intros Hchaos | intros Hchaos].
  - apply button_true in Hchaos.
    apply ends_bind_update.
    apply ends_bind_keeps; [keeps | apply HK | intros s0 ? Hs0].
    apply read_Val in Hs0. subst s0.
    change (truthy (simulation (set_simulation VNone s))) with false.
    simpl negb. unfold when at 1.
    eapply ends_ext; [apply bind_assoc |].
    apply ends_bind_keeps; [apply keeps_liftIO | apply HK | intros r ? _].
    apply ends_bind_update.
    apply simulating_view_ends; [apply HK |].
    intros i sc cards _ _ Hc _. rewrite Hchaos in Hc. discriminate.
  - apply ends_bind_keeps; [keeps | exact HK0 | intros s0 ? Hs0].
    apply read_Val in Hs0. subst s0.
    destruct (truthy (simulation s)) eqn:Ht; simpl negb.
    + unfold ends. rewrite bind_when_false.
      apply simulating_view_ends; [exact HK0 |].
      intros i sc cards Hcards Hi Hc Hr.
      now apply (go_explore e s i sc (simulation s) cards).
    + unfold when at 1.
      eapply ends_ext; [apply bind_assoc |].
      apply ends_bind_keeps; [apply keeps_liftIO | exact HK0 | intros r ? _].
      apply ends_bind_update.
      apply simulating_view_ends; [apply HK |].
      intros i sc cards Hcards Hi Hc Hr.
      apply (go_explore e s i sc r cards); try assumption.
      intros H. rewrite Ht in H. discriminate.
Qed.

Lemma recruiting_stage_ends (e : env) (img : option image) (s : session) :
  stage s = RECRUITING ->
  ends (recruiting_stage repr json_loads e img) s (settled s) (transition e s).
Proof.
  intros Hstage.
  assert (HK : forall c, settled s (set_agents c s)).
  { intros c. repeat split. intros H. now rewrite Hstage in H. }
  assert (HK0 : settled s s) by (repeat split).
  unfold recruiting_stage.
  apply ends_bind_keeps; [apply last_context_keeps | exact HK0 | intros context ? Hctx].
  apply last_context_Val in Hctx.
  apply ends_bind_keeps; [apply keeps_emit | exact HK0 | intros _ _ _].
  apply ends_bind_keeps; [apply keeps_emit | exact HK0 | intros _ _ _].
  apply ends_bind_keeps; [apply keeps_liftIO | exact HK0 | intros council ? _].
  apply ends_bind_update.
  apply ends_bind_keeps; [keeps | apply HK | intros s0 ? _].
  apply ends_bind_keeps; [keeps | apply HK | intros members ? _].
  apply ends_bind_keeps;
    [apply keeps_for_each; intros; apply agent_card_keeps | apply HK | intros _ _ _].
  destruct (button e StartSimulation) eqn:Hb.
  - unfold ends. simpl. right. apply button_true in Hb.
    now apply (go_simulate e s council).
  - unfold ends. simpl. apply HK.
Qed.

Lemma input_stage_ends (e : env) (img : option image) (s : session) :
  stage s = INPUT ->
  ends (input_stage e img) s (settled s) (transition e s).
Proof.
  intros Hstage.
  assert (HK0 : settled s s) by (repeat split).
  assert (Hgo : forall w d, button e w = true -> starts w = true ->
            transition e s
              (set_stage RECRUITING (append_history (start_entry d) s))).
  { intros w d Hb Hw. apply button_true in Hb.
    now apply (go_recruit e s w d). }
  unfold input_stage.
  apply ends_bind_when; [intros Hb | intros _].
  { unfold ends. simpl. right. now apply (Hgo CryptoCrash). }
  apply ends_bind_when; [intros Hb | intros _].
  { unfold ends. simpl. right. now apply (Hgo Pandemic). }
  apply ends_bind_when; [intros Hb | intros _].
  { unfold ends. simpl. right. now apply (Hgo AIBan). }
  destruct (button e InitializeSystem) eqn:Hb; [| unfold ends; simpl; exact HK0].
  unfold when.
  destruct (negb (String.eqb (user_input e) EmptyString) || bool_decide (is_Some img)).
  - unfold ends. simpl. right. now apply (Hgo InitializeSystem).
  - unfold ends. simpl. exact HK0.
Qed.

Lemma script_ends (e : env) (s : session) :
  ends (script repr json_loads e) s (settled s) (transition e s).
Proof.
  assert (HK0 : settled s s) by (repeat split).
  unfold script. destruct (api_key_missing e).
  - unfold ends. simpl. exact HK0.
  - apply ends_bind_when; [intros Hb | intros _].
    { unfold ends. simpl. right. apply button_true in Hb. now apply go_reset. }
    apply ends_bind_keeps; [keeps | exact HK0 | intros s0 ? Hs0].
    apply read_Val in Hs0. subst s0.
    destruct (stage s) eqn:Hstage.
    + now apply input_stage_ends.
    + now apply recruiting_stage_ends.
    + now apply simulating_stage_ends.
Qed.

(** X1: a run either leaves stage and history as they were (only the
    RECRUITING stage may replace the council, only the SIMULATING stage the
    simulation), or it ends with st.rerun() after one of four moves, each
    caused by its button: reset to the fresh session; INPUT to RECRUITING
    with one START entry appended; RECRUITING to SIMULATING with a non-empty
    history; SIMULATING to RECRUITING with the clicked card's scenario
    appended and council and simulation cleared. *)
Theorem script_moves (e : env) (s s' : session) (sig : signal unit) (evs : list event) :
  script repr json_loads e s = (sig, s', evs) ->
  settled s s' \/ (sig = RerunSig /\ transition e s s').
Proof.
  intros Hrun. pose proof (script_ends e s) as H. unfold ends in H.
  rewrite Hrun in H. destruct sig; auto. destruct H; auto.
Qed.

(** X2: in every session reached from the fresh one, a stage other than
    INPUT has a non-empty history: [history[-1]] of lines 225 and 253 is
    never out of range. *)
Theorem reachable_anchored (s : session) : reachable repr json_loads s -> anchored s.
Proof.
  induction 1 as [|e s _ IH]; [now left |].
  pose proof (script_ends e s) as H. unfold ends in H.
  destruct (script repr json_loads e s) as [[sig s'] evs]. simpl.
  assert (Hkeep : settled s s' -> anchored s').
  { intros (Hst & Hh & _). unfold anchored. now rewrite Hst, Hh. }
  assert (Hmove : transition e s s' -> anchored s').
  { intros Ht. destruct Ht; unfold anchored; simpl.
    - now left.
    - right. now destruct (history s).
    - now right.
    - right. now destruct (history s). }
  destruct sig; auto. destruct H; auto.
Qed.

End Moves.

Section RequestCount.

Variable repr : value -> string.
Variable json_loads : string -> reply value.

Lemma calls_bind_ge {A B} (m : M A) (k : A -> M B) (s : session) :
  (calls (snd (m s)) <= calls (snd (bind m k s)))%nat.
Proof.
  unfold bind. destruct (m s) as [[[a|ex| |] s1] ev1]; simpl; try lia.
  destruct (k a s1) as [[r s2] ev2]. simpl. rewrite calls_app. lia.
Qed.

Lemma last_context_has (s : session) :
  has_context s = true -> exists c, last_context s = (Val c, s, []).
Proof.
  intros H. destruct (has_context_value s H) as (entry & c & Hl & Hd).
  exists c. now apply (last_context_value s entry c).
Qed.

Lemma last_context_has_not (s : session) :
  has_context s = false -> exists ex, last_context s = (Exc ex, s, []).
Proof.
  unfold has_context, last_context. rewrite bind_read. unfold last_item.
  destruct (last (history s)) as [entry|]; [| eauto].
  intros H. rewrite bind_lift_Ok.
  destruct (has_field_false _ _ H) as [ex ->]. eauto.
Qed.

Lemma recruiting_stage_calls (e : env) (img : option image) (s : session) :
  (calls (snd (recruiting_stage repr json_loads e img s)) <= 1)%nat.
Proof.
  unfold recruiting_stage.
  apply (calls_bind _ _ s 0 1).
  { pose proof (silent_bind read (fun s => do last <- lift (last_item (history s));
                                    lift (getitem last "description"))) as H.
    unfold last_context. rewrite H; [lia | apply silent_read |]. intros a. silent. }
  intros context s1. rewrite !bind_emit. cbn [snd calls].
  apply (calls_bind _ _ s1 1 0).
  { rewrite liftIO_calls, recruit_agents_calls. lia. }
  intros council s2.
  assert (H : silent (update (set_agents council);;
                      do s <- read;
                      do members <- lift (let? a := getitem (agents s) "agents" in iterate a);
                      for_each agent_card 0 members;;
                      when (button e StartSimulation)
                        (update (set_stage SIMULATING);; st_rerun))).
  { silent. apply silent_for_each. intros i x. apply agent_card_silent. }
  rewrite (H s2). lia.
Qed.

Lemma recruiting_stage_requests (e : env) (img : option image) (s : session) :
  calls (snd (recruiting_stage repr json_loads e img s)) = 1%nat <-> has_context s = true.
Proof.
  destruct (has_context s) eqn:Hc.
  - split; [reflexivity | intros _].
    pose proof (recruiting_stage_calls e img s) as Hle.
    assert (1 <= calls (snd (recruiting_stage repr json_loads e img s)))%nat; [| lia].
    destruct (last_context_has s Hc) as [c Hctx].
    unfold recruiting_stage. rewrite (bind_Val _ _ _ _ _ Hctx), !bind_emit.
    cbn [snd calls].
    etransitivity; [| apply calls_bind_ge].
    rewrite liftIO_calls, recruit_agents_calls. lia.
  - split; [| discriminate]. intros H. exfalso. revert H.
    destruct (last_context_has_not s Hc) as [ex Hctx].
    unfold recruiting_stage. now rewrite (bind_Exc _ _ _ _ _ _ Hctx).
Qed.

Lemma simulating_stage_calls (e : env) (img : option image) (s : session) :
  (calls (snd (simulating_stage repr json_loads e img s)) <= 1)%nat.
Proof.
  unfold simulating_stage.
  destruct (last_context_cases s) as [[c Hc]|[ex Hc]];
    [rewrite (bind_Val _ _ _ _ _ Hc) | rewrite (bind_Exc _ _ _ _ _ _ Hc); simpl; lia].
  apply (calls_bind _ _ s 0 1).
  { assert (H : silent (when (button e InjectChaos) (update (set_simulation VNone))))
      by silent.
    rewrite (H s). lia. }
  intros _ s1. apply (calls_bind _ _ s1 0 1); [simpl; lia |].
  intros s2 s3. apply (calls_bind _ _ s3 1 0).
  - destruct (negb (truthy (simulation s2))); [| simpl; lia].
    simpl when. apply (calls_bind _ _ s3 1 0).
    + rewrite liftIO_calls. apply run_simulation_calls_le.
    + intros r s4. simpl. lia.
  - intros _ s4. rewrite (simulating_view_silent repr e _ s4). lia.
Qed.

Lemma simulating_stage_raise (e : env) (img : option image) (s : session)
    (c : value) (ex : exn) :
  last_context s = (Val c, s, []) ->
  button e InjectChaos = true \/ truthy (simulation s) = false ->
  run_simulation repr json_loads e c (agents s) img (button e InjectChaos) = (Raise ex, []) ->
  snd (simulating_stage repr json_loads e img s) = [].
Proof.
  intros Hc Hcall Hrun. unfold simulating_stage.
  rewrite (bind_Val _ _ _ _ _ Hc).
  destruct (button e InjectChaos) eqn:Hb.
  - rewrite bind_when_true, bind_update, bind_read. simpl truthy. simpl negb.
    rewrite bind_when_true, bind_assoc.
    change (agents (set_simulation VNone s)) with (agents s).
    rewrite Hrun, bind_liftIO_Raise. reflexivity.
  - destruct Hcall as [|Hf]; [discriminate |].
    rewrite bind_when_false, bind_read, Hf. simpl negb.
    rewrite bind_when_true, bind_assoc, Hrun, bind_liftIO_Raise. reflexivity.
Qed.

Lemma simulating_stage_requests (e : env) (img : option image) (s : session) :
  calls (snd (simulating_stage repr json_loads e img s)) = 1%nat
  <-> has_context s = true
      /\ (clicked e = Some InjectChaos \/ truthy (simulation s) = false)
      /\ describable_council (agents s) = true.
Proof.
  destruct (has_context s) eqn:Hctx.
  2:{ destruct (last_context_has_not s Hctx) as [ex Hc].
      unfold simulating_stage. rewrite (bind_Exc _ _ _ _ _ _ Hc).
      split; [discriminate | now intros [? _]]. }
  destruct (last_context_has s Hctx) as [c Hc].
  assert (Hcall : (button e InjectChaos = true \/ truthy (simulation s) = false)
                  <-> (clicked e = Some InjectChaos \/ truthy (simulation s) = false)).
  { split; (intros [H|H]; [left | now right]).
    - now apply button_true.
    - rewrite (button_clicked e _ _ H). reflexivity. }
  assert (Hdec : (button e InjectChaos = true \/ truthy (simulation s) = false)
                 \/ (button e InjectChaos = false /\ truthy (simulation s) = true)).
  { destruct (button e InjectChaos), (truthy (simulation s)); auto. }
  destruct Hdec as [Hgo | [Hb Ht]].
  - destruct (describable_council (agents s)) eqn:Hd.
    + destruct (agents_desc_describable repr _ Hd) as [desc Hdesc].
      destruct (run_simulation_calls_once repr json_loads e c (agents s) img
                  (button e InjectChaos) desc Hdesc) as (r & evs & Hrun & Hq).
      rewrite (simulating_stage_call repr json_loads e img s c r _ Hc Hgo Hrun).
      cbn [snd]. rewrite calls_app. cbn [calls].
      rewrite Hq, (simulating_view_silent repr e).
      split; [intros _ | reflexivity]. repeat split. now apply Hcall.
    + destruct (run_simulation_undescribable repr json_loads e c (agents s) img
                  (button e InjectChaos) Hd) as [ex Hrun].
      rewrite (simulating_stage_raise e img s c ex Hc Hgo Hrun).
      split; [discriminate | now intros (_ & _ & ?)].
  - rewrite (simulating_stage_keep repr json_loads e img s c Hc Hb Ht).
    rewrite (simulating_view_silent repr e).
    split; [discriminate |]. intros (_ & H & _). apply Hcall in H.
    destruct H; congruence.
Qed.

(** X3: a run sends at most one request to the backend, and it sends one
    exactly when the API key is set, RESET SYSTEM was not pressed, the last
    history entry has a description, and the stage is RECRUITING, or the
    stage is SIMULATING with a council that can be described and either no
    simulation is held or "Inject Chaos" was pressed.  So a run without the
    key, a reset, a run at the INPUT stage and a SIMULATING run over a held
    simulation send none, whatever else was clicked. *)
Theorem script_requests (e : env) (s : session) :
  (calls (snd (script repr json_loads e s)) <= 1)%nat
  /\ (calls (snd (script repr json_loads e s)) = 1%nat
      <-> api_key_missing e = false
          /\ clicked e <> Some ResetSystem
          /\ has_context s = true
          /\ (stage s = RECRUITING
              \/ (stage s = SIMULATING
                  /\ (clicked e = Some InjectChaos \/ truthy (simulation s) = false)
                  /\ describable_council (agents s) = true))).
Proof.
  unfold script. destruct (api_key_missing e).
  { simpl. split; [lia |]. split; [discriminate | now intros [? _]]. }
  destruct (button e ResetSystem) eqn:Hreset.
  { simpl. split; [lia |]. split; [discriminate |]. intros (_ & H & _).
    apply button_true in Hreset. contradiction. }
  assert (Hr : clicked e <> Some ResetSystem).
  { intros H. rewrite (button_clicked e _ _ H) in Hreset. discriminate. }
  rewrite bind_when_false, bind_read.
  destruct (stage s) eqn:Hstage.
  - rewrite (input_stage_silent e _ s). split; [lia |].
    split; [discriminate |]. intros (_ & _ & _ & [H | [H _]]); discriminate.
  - split; [apply recruiting_stage_calls |].
    rewrite recruiting_stage_requests. split.
    + intros H. repeat split; auto.
    + now intros (_ & _ & H & _).
  - split; [apply simulating_stage_calls |].
    rewrite simulating_stage_requests. split.
    + intros (H1 & H2 & H3). repeat split; auto.
    + intros (_ & _ & H1 & [H | (_ & H2 & H3)]); [discriminate | auto].
Qed.

End RequestCount.

(** ** More of the report and the tree *)

Section Outputs.

Variable repr : value -> string.

Lemma report_step_Ok (i : nat) (step : value) (report doc : string) :
  report_step repr i step report = Ok doc -> report_ready step = true.
Proof.
  unfold report_step, report_ready.
  destruct (getitem step "title") as [title|] eqn:Ht; [| discriminate].
  destruct (getitem step "description") as [description|] eqn:Hd; [| discriminate].
  pose proof (getitem_is_dict _ _ _ Ht) as Hdict.
  rewrite (getitem_has_field _ _ _ Ht), (getitem_has_field _ _ _ Hd).
  simpl. rewrite !(contains_dict _ _ Hdict). simpl. intros H.
  match type of H with
  | rbind ?x _ = _ => destruct x as [r1|]; [| discriminate]
  end.
  simpl in H. destruct (has_field "risk_level" step) eqn:Hr; [| reflexivity].
  rewrite (has_field_getitem _ _ Hr) in H. simpl in H.
  destruct (getitem step "probability") as [p|] eqn:Hp; [| discriminate].
  now rewrite (getitem_has_field _ _ _ Hp).
Qed.

Lemma report_loop_Ok (history : list value) :
  forall i report doc,
    for_enumerate (report_step repr) i history report = Ok doc ->
    Forall (fun step => report_ready step = true) history.
Proof.
  induction history as [|step history IH]; intros i report doc H; [constructor |].
  simpl in H. destruct (report_step repr i step report) as [r|] eqn:Hs; [| discriminate].
  constructor; [eapply report_step_Ok; exact Hs | eapply IH; exact H].
Qed.

Lemma generate_markdown_report_printable (now : string) (history : list value) :
  Forall (fun step => report_ready step = true) history ->
  generate_markdown_report repr now history = Ok (described_report repr now history).
Proof.
  intros Hh. unfold generate_markdown_report, described_report.
  rewrite (report_loop_described repr history Hh). simpl.
  now rewrite !append_assoc.
Qed.

(** X4: generate_markdown_report returns a document exactly when every
    entry of the history is a dict with a title and a description that has
    a probability whenever it has a risk level; in every other case it
    raises. *)
Theorem generate_markdown_report_Ok_iff (now : string) (history : list value) :
  (exists doc, generate_markdown_report repr now history = Ok doc)
  <-> Forall (fun step => report_ready step = true) history.
Proof.
  split.
  - intros [doc H]. unfold generate_markdown_report in H.
    eapply report_loop_Ok. exact H.
  - intros H. eexists. now apply generate_markdown_report_printable.
Qed.

(** X5: a scenario without the key 'risk_level' makes draw_advanced_tree
    raise KeyError('risk_level'): the colour is computed from the default
    of [opt.get('risk_level', '')], but the edge label then reads
    [opt['risk_level']]. *)
Theorem draw_advanced_tree_missing_risk_level
    (history : list value) (options : value) (pre post : list value) (opt : value) :
  Forall (fun step => has_field "title" step = true) history ->
  getitem options "scenarios" = Ok (VList (pre ++ opt :: post)) ->
  Forall (fun o => leaf_ready o = true) pre ->
  has_field "id" opt = true ->
  has_field "title" opt = true ->
  has_field "time_horizon" opt = true ->
  has_field "probability" opt = true ->
  has_field "risk_level" opt = false ->
  draw_advanced_tree repr history options = Raise (KeyError "risk_level").
Proof.
  intros Hh Hs Hpre Hid Ht Hth Hp Hr.
  destruct (spine_loop_described repr history new_graph Hh) as (dot1 & Hrun & _).
  unfold draw_advanced_tree. rewrite Hrun. simpl.
  rewrite (getitem_truthy _ _ _ Hs), (getitem_get_default _ _ _ _ Hs). simpl.
  rewrite for_enumerate_app.
  destruct (leaf_loop_described repr
              ("H_" +:+ pretty (Z.of_nat (List.length history) - 1)%Z) pre Hpre 0 dot1)
    as (dot2 & -> & _).
  simpl. unfold leaf_step.
  pose proof (has_field_is_dict _ _ Hid) as Hdict.
  assert (Hget : get_default opt "risk_level" (VStr EmptyString) = Ok (VStr EmptyString)).
  { destruct opt; try discriminate. rewrite has_field_dict in Hr.
    unfold get_default, has_key in *. now destruct (dict_lookup "risk_level" d). }
  rewrite (has_field_getitem _ _ Hid). simpl. rewrite Hget. simpl.
  rewrite (has_field_getitem _ _ Ht), (has_field_getitem _ _ Hth),
    (has_field_getitem _ _ Hp). simpl.
  now rewrite (getitem_dict_KeyError _ _ Hdict Hr).
Qed.

(** X6: a current simulation that is true but not a dict (a non-empty
    list, a string, a number) makes draw_advanced_tree raise an
    AttributeError at [options.get]; a dict without the key 'scenarios'
    draws the spine alone. *)
Theorem draw_advanced_tree_odd_options (history : list value) (options : value) :
  Forall (fun step => has_field "title" step = true) history ->
  (truthy options = true -> is_dict options = false ->
   draw_advanced_tree repr history options = Raise AttributeError)
  /\ (truthy options = true -> is_dict options = true ->
      has_field "scenarios" options = false ->
      exists g,
        draw_advanced_tree repr history options = Ok g
        /\ node_stmts g = imap (described_spine_node repr) history
        /\ edge_stmts g = described_spine_edges (List.length history)).
Proof.
  intros Hh.
  destruct (spine_loop_described repr history new_graph Hh) as (dot1 & Hrun & Hn & He).
  change (node_stmts new_graph) with (@nil (string * attrs)) in Hn.
  change (edge_stmts new_graph) with (@nil (endpoint * endpoint * attrs)) in He.
  simpl in Hn, He.
  split.
  - intros Ht Hd. unfold draw_advanced_tree. rewrite Hrun. simpl. rewrite Ht.
    destruct options; try discriminate; reflexivity.
  - intros Ht Hd Hs. unfold draw_advanced_tree. rewrite Hrun. simpl. rewrite Ht.
    assert (Hget : get_default options "scenarios" (VList []) = Ok (VList [])).
    { destruct options; try discriminate. rewrite has_field_dict in Hs.
      unfold get_default, has_key in *. now destruct (dict_lookup "scenarios" d). }
    rewrite Hget. simpl. eauto.
Qed.

End Outputs.

(** ** More of the stages *)

Section Stages.

Variable repr : value -> string.
Variable json_loads : string -> reply value.

(** X7: for every session reached from the fresh one, the report of its
    history is produced without an exception and is the described document,
    and the tree of its history alone is drawn without an exception. *)
Theorem reachable_outputs (s : session) (now : string) :
  reachable repr json_loads s ->
  generate_markdown_report repr now (history s)
  = Ok (described_report repr now (history s))
  /\ exists g,
       draw_advanced_tree repr (history s) VNone = Ok g
       /\ node_stmts g = imap (described_spine_node repr) (history s).
Proof.
  intros Hr. pose proof (reachable_printable repr json_loads s Hr) as Hp.
  split; [now apply generate_markdown_report_printable |].
  assert (Ht : Forall (fun step => has_field "title" step = true) (history s)).
  { eapply Forall_impl; [exact Hp |]. intros step H. unfold report_ready in H.
    apply andb_prop in H as [H _]. now apply andb_prop in H as [H _]. }
  destruct (draw_advanced_tree_described repr (history s) VNone Ht) as [Hnone _].
  destruct (Hnone eq_refl) as (g & Hg & Hn & _). eauto.
Qed.

(** X8: a failure of the recruitment call is not caught: when the backend
    call raises or its text is not JSON, the RECRUITING run ends with that
    exception after the two status lines and the one request, and the
    session is exactly what it was, council included. *)
Theorem recruiting_failure_propagates
    (e : env) (s : session) (entry context : value) (msg : string) :
  api_key_missing e = false ->
  clicked e <> Some ResetSystem ->
  stage s = RECRUITING ->
  last (history s) = Some entry ->
  getitem entry "description" = Ok context ->
  let inputs := recruit_inputs repr context (uploaded_file e) in
  generate_content e recruit_model inputs = Fails msg
  \/ (exists text,
        generate_content e recruit_model inputs = Returns text
        /\ json_loads text = Fails msg) ->
  script repr json_loads e s
  = (Exc (ExternalError msg), s,
     [StWrite (VStr "Processing context and visual data...");
      StWrite (VStr "Recruiting domain experts...");
      GenerateContent recruit_model inputs]).
Proof.
  intros Hkey Hreset Hstage Hlast Hdesc inputs Hfail.
  unfold script. rewrite Hkey.
  assert (Hb : button e ResetSystem = false).
  { unfold button. now apply bool_decide_eq_false_2. }
  rewrite Hb, bind_when_false, bind_read, Hstage.
  unfold recruiting_stage.
  rewrite (bind_Val _ _ _ _ _ (last_context_value s entry context Hlast Hdesc)).
  assert (Hcall : recruit_agents repr json_loads e context (uploaded_file e)
                  = (Raise (ExternalError msg), [GenerateContent recruit_model inputs])).
  { unfold recruit_agents. fold inputs.
    destruct Hfail as [-> | (text & -> & ->)]; reflexivity. }
  now rewrite !bind_emit, Hcall, bind_liftIO_Raise.
Qed.

(** X9: the RECRUITING stage never reads the council it holds: when the
    recruitment call returns, the run is the same whatever council the
    session held before, so START SIMULATION carries the council of that
    very run. *)
Theorem recruiting_ignores_held_council
    (e : env) (s : session) (entry context council held : value) :
  api_key_missing e = false ->
  clicked e <> Some ResetSystem ->
  stage s = RECRUITING ->
  last (history s) = Some entry ->
  getitem entry "description" = Ok context ->
  fst (recruit_agents repr json_loads e context (uploaded_file e)) = Ok council ->
  script repr json_loads e (set_agents held s) = script repr json_loads e s.
Proof.
  intros Hkey Hreset Hstage Hlast Hdesc Hcall.
  unfold script. rewrite Hkey.
  assert (Hb : button e ResetSystem = false).
  { unfold button. now apply bool_decide_eq_false_2. }
  rewrite Hb, !bind_when_false, !bind_read.
  change (stage (set_agents held s)) with (stage s). rewrite Hstage.
  unfold recruiting_stage.
  rewrite (bind_Val _ _ _ _ _ (last_context_value s entry context Hlast Hdesc)).
  rewrite (bind_Val _ _ _ _ _
             (last_context_value (set_agents held s) entry context Hlast Hdesc)).
  rewrite !bind_emit.
  rewrite (recruit_agents_Ok _ _ _ _ _ _ Hcall), !bind_liftIO_Ok, !bind_update.
  reflexivity.
Qed.

(** X10: with an empty history, a run at the RECRUITING or SIMULATING
    stage raises IndexError at [history[-1]] before anything is sent or
    changed. *)
Theorem empty_history_raises (e : env) (s : session) :
  api_key_missing e = false ->
  clicked e <> Some ResetSystem ->
  stage s <> INPUT ->
  history s = [] ->
  script repr json_loads e s = (Exc IndexError, s, []).
Proof.
  intros Hkey Hreset Hstage Hh.
  unfold script. rewrite Hkey.
  assert (Hb : button e ResetSystem = false).
  { unfold button. now apply bool_decide_eq_false_2. }
  rewrite Hb, bind_when_false, bind_read.
  assert (Hc : last_context s = (Exc IndexError, s, [])).
  { unfold last_context. rewrite bind_read. unfold last_item. now rewrite Hh. }
  destruct (stage s); [congruence | |].
  - unfold recruiting_stage. now rewrite (bind_Exc _ _ _ _ _ _ Hc).
  - unfold simulating_stage. now rewrite (bind_Exc _ _ _ _ _ _ Hc).
Qed.

(** X11: INITIALIZE SYSTEM at the INPUT stage: with a text, the START
    entry carries that text, image or not; with no text and no image the
    run only shows the warning and the session does not move. *)
Theorem initialize_system (e : env) (s : session) :
  api_key_missing e = false ->
  stage s = INPUT ->
  clicked e = Some InitializeSystem ->
  (user_input e <> EmptyString ->
   script repr json_loads e s
   = (RerunSig,
      {| stage := RECRUITING; history := history s ++ [start_entry (user_input e)];
         agents := agents s; simulation := simulation s |},
      []))
  /\ (user_input e = EmptyString -> uploaded_file e = None ->
      script repr json_loads e s
      = (Val tt, s, [StWarning "Please enter text or upload an image."])).
Proof.
  intros Hkey Hstage Hclick.
  assert (Hrun : script repr json_loads e s
                 = when (button e InitializeSystem)
                     (if negb (String.eqb (user_input e) EmptyString)
                         || bool_decide (is_Some (uploaded_file e))
                      then
                        update (append_history
                                  (start_entry
                                     (if negb (String.eqb (user_input e) EmptyString)
                                      then user_input e
                                      else "Analyze the uploaded visual data."))) ;;
                        update (set_stage RECRUITING) ;; st_rerun
                      else emit (StWarning "Please enter text or upload an image.")) s).
  { unfold script. rewrite Hkey.
    rewrite (button_clicked e _ ResetSystem Hclick). simpl bool_decide.
    rewrite bind_when_false, bind_read, Hstage. unfold input_stage.
    rewrite (button_clicked e _ CryptoCrash Hclick), (button_clicked e _ Pandemic Hclick),
      (button_clicked e _ AIBan Hclick).
    simpl bool_decide. now rewrite !bind_when_false. }
  rewrite Hrun, (button_clicked e _ InitializeSystem Hclick). simpl bool_decide.
  split.
  - intros Htext. apply String.eqb_neq in Htext. rewrite Htext. reflexivity.
  - intros Htext Himg. rewrite Htext, Himg. reflexivity.
Qed.

(** X12: run_simulation raises exactly when the council cannot be
    described: it is not a dict, it has no 'agents', its 'agents' is a list
    with a member that lacks a name, a role or a stance, a non-empty string
    or dict, or a value that cannot be iterated; then nothing is sent.
    With a council that can be described it returns, after exactly one
    request: failures of the backend or of json.loads never escape it.
    For a list of members the request is the first event, and its prompt
    names each member on a line "- name (role): stance". *)
Theorem run_simulation_raises_iff
    (e : env) (context agents : value) (img : option image) (chaos : bool) :
  ((exists ex, fst (run_simulation repr json_loads e context agents img chaos) = Raise ex)
   <-> describable_council agents = false)
  /\ (describable_council agents = false ->
      snd (run_simulation repr json_loads e context agents img chaos) = [])
  /\ (describable_council agents = true ->
      (exists r, fst (run_simulation repr json_loads e context agents img chaos) = Ok r)
      /\ calls (snd (run_simulation repr json_loads e context agents img chaos)) = 1%nat)
  /\ (forall members,
        getitem agents "agents" = Ok (VList members) ->
        forallb describable members = true ->
        exists r evs,
          run_simulation repr json_loads e context agents img chaos
          = (Ok r,
             GenerateContent simulation_model
               (simulation_inputs
                  (simulation_prompt repr
                     (join nl (map (described_agent_line repr) members)) context chaos)
                  img) :: evs)
          /\ calls evs = 0%nat).
Proof.
  assert (Hyes : describable_council agents = true ->
                 (exists r, fst (run_simulation repr json_loads e context agents img chaos)
                            = Ok r)
                 /\ calls (snd (run_simulation repr json_loads e context agents img chaos))
                    = 1%nat).
  { intros Hd. destruct (agents_desc_describable repr agents Hd) as [desc Hdesc].
    destruct (run_simulation_calls_once repr json_loads e context agents img chaos desc
                Hdesc) as (r & evs & -> & Hq).
    split; [now exists r |]. cbn [snd calls]. now rewrite Hq. }
  assert (Hno : describable_council agents = false ->
                exists ex, run_simulation repr json_loads e context agents img chaos
                           = (Raise ex, [])).
  { apply run_simulation_undescribable. }
  split; [| split; [| split]].
  - split.
    + intros [ex Hex]. destruct (describable_council agents); [| reflexivity].
      destruct (Hyes eq_refl) as [[r Hr] _]. congruence.
    + intros Hd. destruct (Hno Hd) as [ex ->]. now exists ex.
  - intros Hd. now destruct (Hno Hd) as [ex ->].
  - exact Hyes.
  - intros members Hget Hall.
    apply run_simulation_calls_once. now apply agents_desc_members.
Qed.

(** Without a configured API key every run stops at once: the error
    and the hint are shown, the session is untouched and nothing is sent,
    whatever the stage and whatever was clicked. *)
Theorem script_without_key (e : env) (s : session) :
  api_key_missing e = true ->
  script repr json_loads e s
  = (StopSig, s,
     [StError "SECURITY ALERT: API Key not found. Please set `GOOGLE_API_KEY` in Streamlit secrets";
      StInfo "If running locally create a `.streamlit/secrets.toml` file"]).
Proof.
  intros Hkey. unfold script. rewrite Hkey. reflexivity.
Qed.

End Stages.

Section Showing.

Variable repr : value -> string.
Variable json_loads : string -> reply value.

Lemma scenario_cards_pass (e : env) (s : session) (cards : list value) :
  (forall i, button e (ExploreThisPath i) = false) ->
  Forall (fun x => ScenarioNode_ok x = true) cards ->
  forall i,
    for_each (scenario_card e) i cards s
    = (Val tt, s, map (fun sc => StWrite (field "description" sc)) cards).
Proof.
  intros Hb. induction 1 as [|x cards Hx _ IH]; intros i; [reflexivity |].
  simpl for_each.
  rewrite (bind_Val_log _ _ s s tt [StWrite (field "description" x)]).
  - rewrite IH. reflexivity.
  - now rewrite (scenario_card_result e i x s Hx), Hb.
Qed.

(** X13: a SIMULATING run without a click over a held simulation of the
    declared shape, with at least one scenario and a printable history,
    finishes normally and changes nothing: it shows the tree of history and
    simulation, the synthesis, at most one black-swan message, the
    description of every scenario in order, and offers for download the
    report of the current history; nothing is sent. *)
Theorem simulating_shows_held_simulation
    (e : env) (s : session) (entry context : value) (scs : list value) :
  api_key_missing e = false ->
  clicked e = None ->
  stage s = SIMULATING ->
  last (history s) = Some entry ->
  getitem entry "description" = Ok context ->
  Forall (fun step => report_ready step = true) (history s) ->
  SimulationOutput_ok (simulation s) = true ->
  getitem (simulation s) "scenarios" = Ok (VList scs) ->
  scs <> [] ->
  exists g alert,
    script repr json_loads e s =
    (Val tt, s,
     [GraphvizChart g; StWrite (field "synthesis" (simulation s))] ++ alert
     ++ map (fun sc => StWrite (field "description" sc)) scs
     ++ [DownloadButton (described_report repr (clock e) (history s))])
    /\ draw_advanced_tree repr (history s) (simulation s) = Ok g
    /\ (alert = [] \/ exists msg, alert = [StError msg]).
Proof.
  intros Hkey Hclick Hstage Hlast Hdesc Hprint Hshape Hscs Hne.
  assert (Hb : forall w, button e w = false).
  { intros w. unfold button. apply bool_decide_eq_false_2. rewrite Hclick. discriminate. }
  rewrite script_simulating; [| exact Hkey | rewrite Hclick; discriminate | exact Hstage].
  rewrite (simulating_stage_keep repr json_loads e _ s context
             (last_context_value s entry context Hlast Hdesc) (Hb _)
             (getitem_truthy _ _ _ Hscs)).
  unfold SimulationOutput_ok in Hshape. rewrite Hscs in Hshape.
  apply andb_prop in Hshape as [Hshape Halert].
  apply andb_prop in Hshape as [Hall Hsyn].
  assert (Hnodes : Forall (fun x => ScenarioNode_ok x = true) scs).
  { apply Forall_forall. intros x Hx. apply list_elem_of_In in Hx.
    rewrite forallb_forall in Hall. now apply Hall. }
  assert (Hleaves : Forall (fun x => leaf_ready x = true) scs).
  { eapply Forall_impl; [exact Hnodes |]. apply ScenarioNode_leaf_ready. }
  assert (Htitles : Forall (fun step => has_field "title" step = true) (history s)).
  { eapply Forall_impl; [exact Hprint |]. intros step H. unfold report_ready in H.
    apply andb_prop in H as [H _]. now apply andb_prop in H as [H _]. }
  destruct (draw_advanced_tree_described repr (history s) (simulation s) Htitles)
    as [_ Hdraw].
  destruct (Hdraw scs Hscs Hleaves) as (g & Hg & _).
  pose proof (has_field_getitem _ _ (field_is_has_field _ _ _ Hsyn)) as Hsynthesis.
  pose proof (getitem_is_dict _ _ _ Hscs) as Hdict.
  destruct (get_default_dict (simulation s) VNone "black_swan_alert" Hdict) as [alert Ha].
  destruct (get_default_dict (simulation s) (VStr "Chaos Injection Active")
              "black_swan_alert" Hdict) as [shown Hshown].
  assert (Hlen : (List.length scs =? 0)%nat = false).
  { apply Nat.eqb_neq. destruct scs; [congruence | simpl; lia]. }
  assert (Hrest :
    (do scenarios <- lift (get_default (simulation s) "scenarios" (VList []));
     do n <- lift (len scenarios);
     when (n =? 0)%nat (raise StreamlitAPIException) ;;
     do cards <- lift (iterate scenarios);
     for_each (scenario_card e) 0 cards ;;
     do s <- read;
     do report_md <- lift (generate_markdown_report repr (clock e) (history s));
     emit (DownloadButton report_md)) s
    = (Val tt, s,
       map (fun sc => StWrite (field "description" sc)) scs
       ++ [DownloadButton (described_report repr (clock e) (history s))])).
  { rewrite (getitem_get_default _ _ _ _ Hscs), bind_lift_Ok. simpl len.
    rewrite bind_lift_Ok, Hlen, bind_when_false. simpl iterate.
    rewrite bind_lift_Ok.
    rewrite (bind_Val_log _ _ s s tt _
               (scenario_cards_pass e s scs (fun i => Hb _) Hnodes 0)).
    rewrite bind_read, (generate_markdown_report_printable repr _ _ Hprint), bind_lift_Ok.
    reflexivity. }
  unfold simulating_view.
  rewrite bind_read, Hg, bind_lift_Ok, bind_emit, Hsynthesis, bind_lift_Ok, bind_emit.
  unfold get. rewrite Ha, bind_lift_Ok.
  destruct (truthy alert || false).
  - rewrite bind_when_true, bind_assoc, Hshown, bind_lift_Ok, bind_emit, Hrest.
    simpl. exists g. eexists [_]. split; [reflexivity |]. split; [reflexivity | eauto].
  - rewrite bind_when_false, Hrest. simpl.
    exists g, []. split; [reflexivity |]. split; [reflexivity | now left].
Qed.

(** X14: after "Inject Chaos", when the new simulation can be drawn and
    has a synthesis, the black-swan message is shown in the same run: with
    the text 'Chaos Injection Active' if the simulation has no key
    'black_swan_alert', but with the text 'None' if the key is there with
    the value null, since [.get] only defaults a missing key. *)
Theorem chaos_alert_message
    (e : env) (s : session) (entry context sim : value) (g : Digraph) :
  api_key_missing e = false ->
  stage s = SIMULATING ->
  clicked e = Some InjectChaos ->
  last (history s) = Some entry ->
  getitem entry "description" = Ok context ->
  fst (run_simulation repr json_loads e context (agents s) (uploaded_file e) true) = Ok sim ->
  draw_advanced_tree repr (history s) sim = Ok g ->
  has_field "synthesis" sim = true ->
  (has_field "black_swan_alert" sim = false ->
   In (StError "⚠️ BLACK SWAN / CHAOS DETECTED: Chaos Injection Active")
      (snd (script repr json_loads e s)))
  /\ (getitem sim "black_swan_alert" = Ok VNone ->
      In (StError "⚠️ BLACK SWAN / CHAOS DETECTED: None")
         (snd (script repr json_loads e s))).
Proof.
  intros Hkey Hstage Hclick Hlast Hdesc Hcall Hg Hsyn.
  assert (Hb : button e InjectChaos = true).
  { rewrite (button_clicked e _ _ Hclick). reflexivity. }
  rewrite script_simulating; [| exact Hkey | rewrite Hclick; discriminate | exact Hstage].
  assert (Hrun : run_simulation repr json_loads e context (agents s) (uploaded_file e)
                   (button e InjectChaos)
                 = (Ok sim,
                    snd (run_simulation repr json_loads e context (agents s)
                           (uploaded_file e) true))).
  { rewrite Hb.
    destruct (run_simulation repr json_loads e context (agents s) (uploaded_file e) true)
      as [r evs]. simpl in *. now subst r. }
  rewrite (simulating_stage_call repr json_loads e (uploaded_file e) s context sim _
             (last_context_value s entry context Hlast Hdesc) (or_introl Hb) Hrun).
  rewrite Hb. cbn [snd].
  assert (Hdict : is_dict sim = true) by (eapply has_field_is_dict; exact Hsyn).
  assert (Hview : forall shown,
    get sim "black_swan_alert" = Ok VNone ->
    get_default sim "black_swan_alert" (VStr "Chaos Injection Active") = Ok shown ->
    In (StError ("⚠️ BLACK SWAN / CHAOS DETECTED: " +:+ fmt repr shown))
       (snd (simulating_view repr e true (set_simulation sim s)))).
  { intros shown Hget Hshown. unfold simulating_view. rewrite bind_read.
    change (simulation (set_simulation sim s)) with sim.
    change (history (set_simulation sim s)) with (history s).
    rewrite Hg, bind_lift_Ok, bind_emit. cbn [snd]. right.
    rewrite (has_field_getitem _ _ Hsyn), bind_lift_Ok, bind_emit. cbn [snd]. right.
    rewrite Hget, bind_lift_Ok. simpl orb.
    rewrite bind_when_true, bind_assoc, Hshown, bind_lift_Ok, bind_emit. cbn [snd].
    now left. }
  split.
  - intros Hno. apply in_or_app. right.
    apply (Hview (VStr "Chaos Injection Active")).
    + destruct sim; try discriminate. rewrite has_field_dict in Hno.
      unfold get, get_default, has_key in *. now destruct (dict_lookup _ d).
    + destruct sim; try discriminate. rewrite has_field_dict in Hno.
      unfold get_default, has_key in *. now destruct (dict_lookup _ d).
  - intros Hnull. apply in_or_app. right.
    apply (Hview VNone).
    + unfold get. now apply getitem_get_default.
    + now apply getitem_get_default.
Qed.

(** X15: when the simulation call fails (the backend raises or the text
    is not JSON) and the history has titles, the same run draws the tree of
    the history alone and then ends with an uncaught TypeError at
    [simulation['synthesis']] (line 273): the scenario cards and the
    download button are not reached; the session keeps stage, history and
    council, with the simulation unset. *)
Theorem failed_simulation_ends_in_TypeError
    (e : env) (s : session) (entry context : value) (desc msg : string) :
  api_key_missing e = false ->
  clicked e <> Some ResetSystem ->
  stage s = SIMULATING ->
  last (history s) = Some entry ->
  getitem entry "description" = Ok context ->
  agents_desc repr (agents s) = Ok desc ->
  Forall (fun step => has_field "title" step = true) (history s) ->
  button e InjectChaos = true \/ truthy (simulation s) = false ->
  let inputs :=
    simulation_inputs (simulation_prompt repr desc context (button e InjectChaos))
      (uploaded_file e) in
  generate_content e simulation_model inputs = Fails msg
  \/ (exists text,
        generate_content e simulation_model inputs = Returns text
        /\ json_loads text = Fails msg) ->
  exists g,
    draw_advanced_tree repr (history s) VNone = Ok g
    /\ script repr json_loads e s
       = (Exc TypeError, set_simulation VNone s,
          [GenerateContent simulation_model inputs;
           StError ("Simulation Error: " +:+ msg); GraphvizChart g]).
Proof.
  intros Hkey Hreset Hstage Hlast Hdesc Hagents Htitles Hcall inputs Hfail.
  assert (Hrun : run_simulation repr json_loads e context (agents s) (uploaded_file e)
                   (button e InjectChaos)
                 = (Ok VNone,
                    [GenerateContent simulation_model inputs;
                     StError ("Simulation Error: " +:+ msg)])).
  { unfold run_simulation. rewrite Hagents. fold inputs.
    destruct Hfail as [-> | (text & -> & ->)]; reflexivity. }
  destruct (draw_advanced_tree_described repr (history s) VNone Htitles) as [Hdraw _].
  destruct (Hdraw eq_refl) as (g & Hg & _).
  exists g. split; [exact Hg |].
  rewrite script_simulating by assumption.
  rewrite (simulating_stage_call repr json_loads e (uploaded_file e) s context VNone _
             (last_context_value s entry context Hlast Hdesc) Hcall Hrun).
  unfold simulating_view. rewrite bind_read.
  change (simulation (set_simulation VNone s)) with VNone.
  change (history (set_simulation VNone s)) with (history s).
  rewrite Hg, bind_lift_Ok, bind_emit.
  change (getitem VNone "synthesis") with (@Raise value TypeError).
  rewrite bind_lift_Raise. reflexivity.
Qed.

End Showing.

(** ** The further properties on sample data *)

Lemma script_moves_witness :
  let run := script Demo.repr Demo.json_loads Sample.explore_click
               (Demo.simulating Sample.three) in
  settled (Demo.simulating Sample.three) (snd (fst run))
  \/ (fst (fst run) = RerunSig
      /\ transition Sample.explore_click (Demo.simulating Sample.three) (snd (fst run))).
Proof.
  exact (script_moves Demo.repr Demo.json_loads Sample.explore_click
           (Demo.simulating Sample.three) _ _ _ eq_refl).
Defined.

Lemma reachable_anchored_witness :
  anchored (snd (fst (script Demo.repr Demo.json_loads Sample.first_click fresh_session))).
Proof.
  exact (reachable_anchored Demo.repr Demo.json_loads _
           (reachable_run _ _ Sample.first_click fresh_session (reachable_fresh _ _))).
Defined.

Lemma draw_advanced_tree_missing_risk_level_witness :
  draw_advanced_tree Demo.repr [Demo.seed]
    (VDict [("scenarios", VList ([Demo.sc_1] ++ Sample.no_risk_level :: []))])
  = Raise (KeyError "risk_level").
Proof.
  exact (draw_advanced_tree_missing_risk_level Demo.repr [Demo.seed]
           (VDict [("scenarios", VList ([Demo.sc_1] ++ Sample.no_risk_level :: []))])
           [Demo.sc_1] [] Sample.no_risk_level
           ltac:(repeat constructor) eq_refl ltac:(repeat constructor)
           eq_refl eq_refl eq_refl eq_refl eq_refl).
Defined.

Lemma draw_advanced_tree_odd_options_witness :
  draw_advanced_tree Demo.repr [Demo.seed] (VList [VInt 1]) = Raise AttributeError.
Proof.
  exact (proj1 (draw_advanced_tree_odd_options Demo.repr [Demo.seed] (VList [VInt 1])
                  ltac:(repeat constructor)) eq_refl eq_refl).
Defined.

Lemma reachable_outputs_witness :
  let s := snd (fst (script Demo.repr Demo.json_loads Sample.first_click fresh_session)) in
  generate_markdown_report Demo.repr "2026-01-01 00:00:00" (history s)
  = Ok (described_report Demo.repr "2026-01-01 00:00:00" (history s)).
Proof.
  exact (proj1 (reachable_outputs Demo.repr Demo.json_loads _ "2026-01-01 00:00:00"
                  (reachable_run _ _ Sample.first_click fresh_session
                     (reachable_fresh _ _)))).
Defined.

Lemma recruiting_failure_propagates_witness :
  script Demo.repr Demo.json_loads (Demo.world None (Fails "503 Service Unavailable"))
    Demo.recruiting
  = (Exc (ExternalError "503 Service Unavailable"), Demo.recruiting,
     [StWrite (VStr "Processing context and visual data...");
      StWrite (VStr "Recruiting domain experts...");
      GenerateContent recruit_model (recruit_inputs Demo.repr (VStr "AI Ban") None)]).
Proof.
  exact (recruiting_failure_propagates Demo.repr Demo.json_loads
           (Demo.world None (Fails "503 Service Unavailable")) Demo.recruiting
           Demo.seed (VStr "AI Ban") "503 Service Unavailable"
           eq_refl ltac:(discriminate) eq_refl eq_refl eq_refl (or_introl eq_refl)).
Defined.

Lemma recruiting_ignores_held_council_witness :
  let e := Demo.world (Some StartSimulation)
             (Returns (Demo.to_json (Demo.council [Demo.vega; Demo.orion; Demo.lyra]))) in
  script Demo.repr Demo.json_loads e (set_agents (Demo.council [Demo.atlas]) Demo.recruiting)
  = script Demo.repr Demo.json_loads e Demo.recruiting.
Proof.
  exact (recruiting_ignores_held_council Demo.repr Demo.json_loads
           (Demo.world (Some StartSimulation)
              (Returns (Demo.to_json (Demo.council [Demo.vega; Demo.orion; Demo.lyra]))))
           Demo.recruiting Demo.seed (VStr "AI Ban")
           (Demo.council [Demo.vega; Demo.orion; Demo.lyra]) (Demo.council [Demo.atlas])
           eq_refl ltac:(discriminate) eq_refl eq_refl eq_refl eq_refl).
Defined.

Lemma empty_history_raises_witness :
  script Demo.repr Demo.json_loads (Demo.world None (Fails "unused")) Sample.adrift
  = (Exc IndexError, Sample.adrift, []).
Proof.
  exact (empty_history_raises Demo.repr Demo.json_loads
           (Demo.world None (Fails "unused")) Sample.adrift
           eq_refl ltac:(discriminate) ltac:(discriminate) eq_refl).
Defined.

Lemma initialize_system_witness :
  script Demo.repr Demo.json_loads Sample.first_click fresh_session
  = (RerunSig,
     {| stage := RECRUITING;
        history := [start_entry "A sudden collapse in the global lithium supply chain"];
        agents := VNone; simulation := VNone |},
     []).
Proof.
  exact (proj1 (initialize_system Demo.repr Demo.json_loads Sample.first_click
                  fresh_session eq_refl eq_refl eq_refl) ltac:(discriminate)).
Defined.

Lemma script_without_key_witness :
  fst (script Demo.repr Demo.json_loads
         (Sample.without_key Sample.chaos_click) (Demo.simulating Sample.three))
  = (StopSig, Demo.simulating Sample.three).
Proof.
  exact (f_equal fst
           (script_without_key Demo.repr Demo.json_loads
              (Sample.without_key Sample.chaos_click) (Demo.simulating Sample.three)
              eq_refl)).
Defined.

Lemma simulating_shows_held_simulation_witness :
  exists g alert,
    script Demo.repr Demo.json_loads (Demo.world None (Fails "unused"))
      (Demo.simulating Sample.three)
    = (Val tt, Demo.simulating Sample.three,
       [GraphvizChart g; StWrite (VStr "The council disagrees.")] ++ alert
       ++ [StWrite (VStr "What follows."); StWrite (VStr "What follows.");
           StWrite (VStr "What follows.")]
       ++ [DownloadButton
             (described_report Demo.repr "2026-01-01 00:00:00" [Demo.seed])])
    /\ draw_advanced_tree Demo.repr [Demo.seed] Sample.three = Ok g
    /\ (alert = [] \/ exists msg, alert = [StError msg]).
Proof.
  exact (simulating_shows_held_simulation Demo.repr Demo.json_loads
           (Demo.world None (Fails "unused")) (Demo.simulating Sample.three)
           Demo.seed (VStr "AI Ban") [Demo.sc_1; Demo.sc_2; Demo.sc_3]
           eq_refl eq_refl eq_refl eq_refl eq_refl ltac:(repeat constructor)
           eq_refl eq_refl ltac:(discriminate)).
Defined.

Lemma chaos_alert_message_witness :
  In (StError "⚠️ BLACK SWAN / CHAOS DETECTED: None")
     (snd (script Demo.repr Demo.json_loads Sample.chaos_click
             (Demo.simulating (Demo.batch [Demo.sc_1])))).
Proof.
  edestruct (chaos_alert_message Demo.repr Demo.json_loads Sample.chaos_click
               (Demo.simulating (Demo.batch [Demo.sc_1])) Demo.seed (VStr "AI Ban")
               Sample.three) as [_ H]; try reflexivity.
  exact (H eq_refl).
Defined.

Lemma failed_simulation_ends_in_TypeError_witness :
  exists g,
    draw_advanced_tree Demo.repr [Demo.seed] VNone = Ok g
    /\ script Demo.repr Demo.json_loads (Demo.world None (Fails "503 Service Unavailable"))
         (Demo.simulating VNone)
       = (Exc TypeError, set_simulation VNone (Demo.simulating VNone),
          [GenerateContent simulation_model
             [PText (simulation_prompt Demo.repr Demo.council_desc (VStr "AI Ban") false)];
           StError "Simulation Error: 503 Service Unavailable"; GraphvizChart g]).
Proof.
  exact (failed_simulation_ends_in_TypeError Demo.repr Demo.json_loads
           (Demo.world None (Fails "503 Service Unavailable")) (Demo.simulating VNone)
           Demo.seed (VStr "AI Ban") Demo.council_desc "503 Service Unavailable"
           eq_refl ltac:(discriminate) eq_refl eq_refl eq_refl eq_refl
           ltac:(repeat constructor) (or_intror eq_refl) (or_introl eq_refl)).
Defined.
